(** * CreateFlowtable: the flowtable stage of RHESSysWorkflows

    A shallow embedding of [bin/CreateFlowtable.py].  The script is a
    straight line of statements: it reads three sections of the project
    metadata, checks that the keys it needs are there, compares the two DEM
    resolutions, builds the arguments of [createflowpaths], runs it through
    GRASS, and records the flowtable names in the metadata.

    The script is modelled as a computation that logs what it does to the
    outside (standard output, the external command, the metadata writes) and
    either runs to its end or halts ([sys.exit], an exception nobody
    catches).

    The modules the script imports are not part of the model.  The three
    metadata sections are taken as they were read (lines 113-115);
    [RHESSysPaths] and [read_command] are parameters; the constructors
    [Context], [RHESSysPaths], [GRASSConfig] and [GRASSLib] and the metadata
    writes are taken not to raise; [os.path.join] is the one of
    [posixpath]. *)

From Stdlib Require Import Ascii QArith Qround.
From stdpp Require Import base option list strings gmap pretty.

Local Open Scope string_scope.
Local Open Scope list_scope.

(** ** Python values the script computes with *)

(** Python floats are kept abstract: [float] is the constructor [float(s)]
    on a [str] ([None] when it raises [ValueError]), [float_ne] is [!=] and
    [format_f] is the conversion ["%f" % x]. *)
Class PyFloat := {
  pyfloat : Type;
  float : string → option pyfloat;
  float_ne : pyfloat → pyfloat → bool;
  format_f : pyfloat → string
}.

(** ["%s" % (r,)] where [r] is a [str] or [None]. *)
Definition format_s (r : option string) : string :=
  match r with
  | Some s => s
  | None => "None"
  end.

(** [s.startswith('/')] and [s.endswith('/')]. *)
Definition startswith_sep (s : string) : bool :=
  match s with
  | String c _ => bool_decide (c = "/"%char)
  | EmptyString => false
  end.

Fixpoint endswith_sep (s : string) : bool :=
  match s with
  | EmptyString => false
  | String c EmptyString => bool_decide (c = "/"%char)
  | String _ s' => endswith_sep s'
  end.

(** [os.path.join(a, b)] of [posixpath], for two components. *)
Definition os_path_join (a b : string) : string :=
  if startswith_sep b then b
  else if bool_decide (a = "") || endswith_sep a then a +:+ b
  else a +:+ "/" +:+ b.

(** ** Collaborators of the script *)

(** The attributes of [RHESSysPaths] the script reads. *)
Record rhessys_paths := {
  RHESSYS_TEMPLATES : string;
  RHESSYS_FLOW : string
}.

(** The GRASS session [GRASSConfig(context, grassDbase, location, mapset)]. *)
Record grass_config := {
  gisdbase : string;
  location : string;
  mapset : string
}.

Section Model.
Context `{PyFloat}.

(** The command and keyword arguments of [read_command]; [None] is Python's
    [None]. *)
Record cf_args := {
  cf_prog : string;
  cf_out : string;
  cf_template : string;
  cf_dem : string;
  cf_slope : string;
  cf_stream : string;
  cf_road : string;
  cf_roof : option string;
  cf_impervious : option string;
  cf_cellsize : pyfloat
}.

(** What lies outside the script: the constructor of [RHESSysPaths] and the
    GRASS call [read_command], whose result is a string or [None]. *)
Class Collaborators := {
  RHESSysPaths : string → string → rhessys_paths;
  read_command : grass_config → cf_args → option string
}.

(** ** Effects *)

Inductive event :=
| StdoutWrite (s : string)
| Print (s : string)
| ReadCommand (g : grass_config) (a : cf_args) (r : option string)
| WriteRHESSysEntry (key value : string)
| AppendProcessingHistoryItem (item : string).

Inductive exn :=
| ValueError (s : string)
| KeyError (key : string).

Inductive halt :=
| SysExit (msg : string)
| Uncaught (e : exn).

(** A script logs events and ends with a value or a halt. *)
Definition Script (A : Type) : Type := list event * (halt + A).

Definition tell (ev : event) : Script unit := ([ev], inr ()).
Definition sys_exit {A} (msg : string) : Script A := ([], inl (SysExit msg)).
Definition raise {A} (e : exn) : Script A := ([], inl (Uncaught e)).

#[export] Instance Script_ret : MRet Script := λ A a, ([], inr a).
#[export] Instance Script_bind : MBind Script := λ A B f m,
  match m with
  | (tr, inl h) => (tr, inl h)
  | (tr, inr a) => let '(tr', r) := f a in (tr ++ tr', r)
  end.

(** [d[k]] on a dictionary. *)
Definition getitem (d : gmap string string) (k : string) : Script string :=
  match d !! k with
  | Some v => mret v
  | None => raise (KeyError k)
  end.

(** [float(s)]. *)
Definition to_float (s : string) : Script pyfloat :=
  match float s with
  | Some x => mret x
  | None => raise (ValueError s)
  end.

(** [if not k in d: sys.exit(msg)]. *)
Definition exit_unless_in (k : string) (d : gmap string string) (msg : string)
  : Script unit :=
  match d !! k with
  | Some _ => mret ()
  | None => sys_exit msg
  end.

(** ** The script *)

(** The parsed command line ([configfile] and [verbose] are not read again
    after the context is built). *)
Record Args := {
  projectDir : string;
  routeRoads : bool;
  routeRoofs : bool;
  force : bool
}.

(** What the script starts from: its arguments, the command line as
    [getCommandLine] gives it, the project directory of the context, and the
    three metadata sections as read at lines 113-115. *)
Record Invocation := {
  args : Args;
  cmdline : string;
  context_projectDir : string;
  studyArea : gmap string string;
  grassMetadata : gmap string string;
  metadata : gmap string string
}.

Context `{Collaborators}.

Section Stage.
Variable i : Invocation.

(** ["Metadata in project directory %s does not contain <what>" %
    (context.projectDir,)] *)
Definition missing (what : string) : string :=
  "Metadata in project directory " +:+ context_projectDir i
    +:+ " does not contain " +:+ what.

(** Lines 117-154. *)
Definition check_metadata : Script unit :=
  exit_unless_in "dem_res_x" (studyArea i) (missing "a DEM x resolution");;
  exit_unless_in "dem_res_y" (studyArea i) (missing "a DEM y resolution");;
  exit_unless_in "grass_dbase" (metadata i) (missing "a GRASS Dbase");;
  exit_unless_in "grass_location" (metadata i) (missing "a GRASS location");;
  exit_unless_in "grass_mapset" (metadata i) (missing "a GRASS mapset");;
  exit_unless_in "rhessys_dir" (metadata i) (missing "a RHESSys directory");;
  exit_unless_in "cf_bin" (metadata i)
    (missing "a createflowpaths executable");;
  exit_unless_in "worldfile" (metadata i) (missing "a worldfile");;
  exit_unless_in "template" (metadata i) (missing "a template");;
  exit_unless_in "dem_rast" (grassMetadata i)
    (missing "a GRASS dataset with a DEM raster");;
  exit_unless_in "slope_rast" (grassMetadata i)
    (missing "a GRASS dataset with a slope raster");;
  exit_unless_in "streams_rast" (grassMetadata i)
    (missing "a GRASS dataset with a stream raster");;
  exit_unless_in "zero_rast" (grassMetadata i)
    (missing "a GRASS dataset with a zero raster");;
  (if routeRoads (args i) then
     exit_unless_in "roads_rast" (grassMetadata i)
       (missing "a GRASS dataset with a roads raster")
   else mret ());;
  (if routeRoofs (args i) then
     exit_unless_in "roof_connectivity_rast" (grassMetadata i)
       (missing "a GRASS dataset with a roofs raster");;
     exit_unless_in "impervious_rast" (grassMetadata i)
       (missing "a GRASS dataset with a impervious raster")
   else mret ()).

(** ["DEM x resolution (%f) does not match y resolution (%f)" %
    (demResX, demResY)] *)
Definition resolution_warning (demResX demResY : pyfloat) : string :=
  "DEM x resolution (" +:+ format_f demResX
    +:+ ") does not match y resolution (" +:+ format_f demResY +:+ ")".

(** Lines 156-162; the value is [demResX]. *)
Definition check_resolution : Script pyfloat :=
  sx ← getitem (studyArea i) "dem_res_x";
  demResX ← to_float sx;
  sy ← getitem (studyArea i) "dem_res_y";
  demResY ← to_float sy;
  (if float_ne demResX demResY then
     tell (StdoutWrite (resolution_warning demResX demResY));;
     (if negb (force (args i)) then
        sys_exit "Exiting.  Use --force option to override"
      else mret ())
   else mret ());;
  mret demResX.

(** Lines 177-181. *)
Definition select_roads : Script string :=
  if routeRoads (args i) then getitem (grassMetadata i) "roads_rast"
  else getitem (grassMetadata i) "zero_rast".

(** Lines 188-191: the names [(surfaceFlowtable, subsurfaceFlowtable)]. *)
Definition flowtable_names (flowTableNameBase : string) : string * string :=
  if routeRoofs (args i) then
    (flowTableNameBase +:+ "_surface.flow",
     flowTableNameBase +:+ "_subsurface.flow")
  else
    (flowTableNameBase +:+ ".flow", flowTableNameBase +:+ ".flow").

(** Lines 183-187: [(roofs, impervious)]. *)
Definition select_roofs : Script (option string * option string) :=
  if routeRoofs (args i) then
    roofs ← getitem (grassMetadata i) "roof_connectivity_rast";
    impervious ← getitem (grassMetadata i) "impervious_rast";
    mret (Some roofs, Some impervious)
  else mret (None, None).

(** The whole script from line 117 on. *)
Definition main : Script unit :=
  check_metadata;;
  demResX ← check_resolution;
  (* 164-168 *)
  rhessys_dir ← getitem (metadata i) "rhessys_dir";
  let paths := RHESSysPaths (projectDir (args i)) rhessys_dir in
  grass_dbase ← getitem (metadata i) "grass_dbase";
  let grassDbase := os_path_join (context_projectDir i) grass_dbase in
  grass_location ← getitem (metadata i) "grass_location";
  grass_mapset ← getitem (metadata i) "grass_mapset";
  let grassConfig :=
    {| gisdbase := grassDbase; location := grass_location;
       mapset := grass_mapset |} in
  (* 170-175 *)
  cf_bin ← getitem (metadata i) "cf_bin";
  let cfPath := os_path_join (context_projectDir i) cf_bin in
  template ← getitem (metadata i) "template";
  let templatePath := os_path_join (RHESSYS_TEMPLATES paths) template in
  tell (Print templatePath);;
  flowTableNameBase ← getitem (metadata i) "worldfile";
  let flowOutpath := os_path_join (RHESSYS_FLOW paths) flowTableNameBase in
  tell (Print flowOutpath);;
  (* 177-191 *)
  roads ← select_roads;
  '(roofs, impervious) ← select_roofs;
  let '(surfaceFlowtable, subsurfaceFlowtable) :=
    flowtable_names flowTableNameBase in
  (* 194-201 *)
  dem_rast ← getitem (grassMetadata i) "dem_rast";
  slope_rast ← getitem (grassMetadata i) "slope_rast";
  streams_rast ← getitem (grassMetadata i) "streams_rast";
  let cf :=
    {| cf_prog := cfPath; cf_out := flowOutpath; cf_template := templatePath;
       cf_dem := dem_rast; cf_slope := slope_rast; cf_stream := streams_rast;
       cf_road := roads; cf_roof := roofs; cf_impervious := impervious;
       cf_cellsize := demResX |} in
  let result := read_command grassConfig cf in
  tell (ReadCommand grassConfig cf result);;
  (if bool_decide (result = None) then
     sys_exit ("createflowpaths failed, returning " +:+ format_s result)
   else mret ());;
  (* 202-206 *)
  tell (WriteRHESSysEntry "surface_flowtable" surfaceFlowtable);;
  tell (WriteRHESSysEntry "subsurface_flowtable" subsurfaceFlowtable);;
  tell (AppendProcessingHistoryItem (cmdline i)).

End Stage.
End Model.

(** ** A reference instance, to run the script on examples *)

(** Decimal literals [[+-]digits[.digits]] read as exact rationals.  Python's
    [float] accepts more (exponents, [inf], [nan], blanks) and rounds to a
    double; the theorems below do not depend on this instance. *)
Module Decimal.

Definition digit_of (c : ascii) : option Z :=
  let n := N_of_ascii c in
  if (48 <=? n)%N && (n <=? 57)%N then Some (Z.of_N (n - 48)) else None.

(** Reads the leading digits of [s]: their value after [acc], how many there
    are after [len], and what follows them. *)
Fixpoint read_digits (s : string) (acc : Z) (len : nat) : Z * nat * string :=
  match s with
  | String c s' =>
      match digit_of c with
      | Some d => read_digits s' (10 * acc + d)%Z (S len)
      | None => (acc, len, s)
      end
  | EmptyString => (acc, len, s)
  end.

Definition unsigned (s : string) : option Q :=
  let '(ip, n1, r1) := read_digits s 0%Z 0%nat in
  match r1 with
  | EmptyString => if bool_decide (n1 = 0%nat) then None else Some (inject_Z ip)
  | String "." r2 =>
      let '(fp, n2, r3) := read_digits r2 0%Z 0%nat in
      if bool_decide (r3 = "") && negb (bool_decide ((n1 + n2)%nat = 0%nat))
      then Some (Qmake (ip * 10 ^ Z.of_nat n2 + fp) (Z.to_pos (10 ^ Z.of_nat n2)))
      else None
  | _ => None
  end.

Definition parse (s : string) : option Q :=
  match s with
  | String "-" s' => Qopp <$> unsigned s'
  | String "+" s' => unsigned s'
  | _ => unsigned s
  end.

(** Six decimals, rounded half up. *)
Definition format (q : Q) : string :=
  let n := Qfloor (q * inject_Z 1000000 + (1 # 2)) in
  let a := Z.abs n in
  let frac := pretty (Z.to_N (a mod 1000000)) in
  (if (n <? 0)%Z then "-" else "")
    +:+ pretty (Z.to_N (a / 1000000)) +:+ "."
    +:+ String.concat "" (replicate (6 - String.length frac) "0") +:+ frac.

#[export] Instance decimal_float : PyFloat := {|
  pyfloat := Q;
  float := parse;
  float_ne := λ x y, negb (Qeq_bool x y);
  format_f := format
|}.

(** The float [n / d] of this instance. *)
Definition ratio (n : Z) (d : positive) : pyfloat := Qmake n d.

(** [RHESSysPaths] as directories under [basedir/rhessysDir], and a
    [createflowpaths] that succeeds exactly when the executable is
    [/proj/bin/cf]. *)
#[export] Instance sample_collaborators : Collaborators := {|
  RHESSysPaths := λ basedir rhessysDir,
    {| RHESSYS_TEMPLATES :=
         os_path_join (os_path_join basedir rhessysDir) "templates";
       RHESSYS_FLOW := os_path_join (os_path_join basedir rhessysDir) "flow" |};
  read_command := λ _ a,
    if bool_decide (cf_prog a = "/proj/bin/cf") then Some "" else None
|}.

Definition sample_study (x y : string) : gmap string string :=
  <["dem_res_x" := x]> (<["dem_res_y" := y]> ∅).

Definition sample_metadata (cf : string) : gmap string string :=
  list_to_map
    [("grass_dbase", "GRASSData"); ("grass_location", "default");
     ("grass_mapset", "PERMANENT"); ("rhessys_dir", "rhessys");
     ("cf_bin", cf); ("worldfile", "world"); ("template", "template.txt")].

Definition sample_grass : gmap string string :=
  list_to_map
    [("dem_rast", "dem"); ("slope_rast", "slope"); ("streams_rast", "streams");
     ("zero_rast", "zero"); ("roads_rast", "roads");
     ("roof_connectivity_rast", "roofs"); ("impervious_rast", "impervious")].

Definition sample (roads roofs frc : bool) (x y : string)
    (md g : gmap string string) : Invocation :=
  {| args := {| projectDir := "/proj"; routeRoads := roads;
                routeRoofs := roofs; force := frc |};
     cmdline := "CreateFlowtable.py -p /proj";
     context_projectDir := "/proj";
     studyArea := sample_study x y;
     grassMetadata := g;
     metadata := md |}.

(** A project where everything is in place and the tool works. *)
Definition good (roads roofs frc : bool) (x y : string) : Invocation :=
  sample roads roofs frc x y (sample_metadata "bin/cf") sample_grass.

(** The same with an executable the tool fails on. *)
Definition failing : Invocation :=
  sample false false false "10.0" "10.0" (sample_metadata "bin/none")
    sample_grass.

End Decimal.

(** ** The contract of the stage, as the specification words it *)

Section Contract.
Context `{PyFloat} `{!Collaborators}.

Inductive md_section := StudyAreaSection | RHESSysSection | GRASSSection.

(** A required key: its section, its name, and how the abort message
    describes it. *)
Record requirement := {
  req_section : md_section;
  req_key : string;
  req_what : string
}.

#[export] Instance md_section_eq_dec : EqDecision md_section.
Proof. solve_decision. Defined.
#[export] Instance requirement_eq_dec : EqDecision requirement.
Proof. solve_decision. Defined.

Definition unconditional : list requirement :=
  [ {| req_section := StudyAreaSection; req_key := "dem_res_x";
       req_what := "a DEM x resolution" |};
    {| req_section := StudyAreaSection; req_key := "dem_res_y";
       req_what := "a DEM y resolution" |};
    {| req_section := RHESSysSection; req_key := "grass_dbase";
       req_what := "a GRASS Dbase" |};
    {| req_section := RHESSysSection; req_key := "grass_location";
       req_what := "a GRASS location" |};
    {| req_section := RHESSysSection; req_key := "grass_mapset";
       req_what := "a GRASS mapset" |};
    {| req_section := RHESSysSection; req_key := "rhessys_dir";
       req_what := "a RHESSys directory" |};
    {| req_section := RHESSysSection; req_key := "cf_bin";
       req_what := "a createflowpaths executable" |};
    {| req_section := RHESSysSection; req_key := "worldfile";
       req_what := "a worldfile" |};
    {| req_section := RHESSysSection; req_key := "template";
       req_what := "a template" |};
    {| req_section := GRASSSection; req_key := "dem_rast";
       req_what := "a GRASS dataset with a DEM raster" |};
    {| req_section := GRASSSection; req_key := "slope_rast";
       req_what := "a GRASS dataset with a slope raster" |};
    {| req_section := GRASSSection; req_key := "streams_rast";
       req_what := "a GRASS dataset with a stream raster" |};
    {| req_section := GRASSSection; req_key := "zero_rast";
       req_what := "a GRASS dataset with a zero raster" |} ].

Definition conditional (a : Args) : list requirement :=
  (if routeRoads a then
     [ {| req_section := GRASSSection; req_key := "roads_rast";
          req_what := "a GRASS dataset with a roads raster" |} ]
   else []) ++
  (if routeRoofs a then
     [ {| req_section := GRASSSection; req_key := "roof_connectivity_rast";
          req_what := "a GRASS dataset with a roofs raster" |};
       {| req_section := GRASSSection; req_key := "impervious_rast";
          req_what := "a GRASS dataset with a impervious raster" |} ]
   else []).

(** Every requirement the script can check. *)
Definition all_requirements : list requirement :=
  unconditional
    ++ conditional {| projectDir := ""; routeRoads := true;
                      routeRoofs := true; force := false |}.

(** The fixed order of the checks: unconditional keys, then the keys the
    flags ask for. *)
Definition check_order (a : Args) : list requirement :=
  unconditional ++ conditional a.

Definition section_of (i : Invocation) (s : md_section) : gmap string string :=
  match s with
  | StudyAreaSection => studyArea i
  | RHESSysSection => metadata i
  | GRASSSection => grassMetadata i
  end.

Definition present (i : Invocation) (r : requirement) : bool :=
  match section_of i (req_section r) !! req_key r with
  | Some _ => true
  | None => false
  end.

Definition absent (i : Invocation) (r : requirement) : bool :=
  negb (present i r).

(** The first requirement, in the order of the checks, that the metadata
    does not meet. *)
Definition first_missing (i : Invocation) : option requirement :=
  List.find (absent i) (check_order (args i)).

(** What a run did to the outside. *)
Definition is_invocation (ev : event) : bool :=
  match ev with ReadCommand _ _ _ => true | _ => false end.

Definition is_metadata_write (ev : event) : bool :=
  match ev with
  | WriteRHESSysEntry _ _ | AppendProcessingHistoryItem _ => true
  | _ => false
  end.

Definition is_output (ev : event) : bool :=
  match ev with StdoutWrite _ | Print _ => true | _ => false end.

Definition invoked (tr : list event) : bool := existsb is_invocation tr.
Definition wrote_metadata (tr : list event) : bool :=
  existsb is_metadata_write tr.

(** [sub in s] on strings. *)
Definition contains (s sub : string) : Prop :=
  ∃ pre post, s = pre +:+ sub +:+ post.

(** The value under a key, [""] when there is none. *)
Definition value (d : gmap string string) (k : string) : string :=
  default "" (d !! k).

(** The entries and the history items a run wrote, in order. *)
Definition entries_written (tr : list event) : list (string * string) :=
  omap (λ ev, match ev with
              | WriteRHESSysEntry k v => Some (k, v)
              | _ => None
              end) tr.

Definition history_appended (tr : list event) : list string :=
  omap (λ ev, match ev with
              | AppendProcessingHistoryItem c => Some c
              | _ => None
              end) tr.

(** *** The decision tree of the script

    [summary] spells out, branch by branch, what [main] comes to; lemma
    [main_summary] proves the two equal. *)

Definition stage_paths (i : Invocation) : rhessys_paths :=
  RHESSysPaths (projectDir (args i)) (value (metadata i) "rhessys_dir").

Definition grass_session (i : Invocation) : grass_config :=
  {| gisdbase :=
       os_path_join (context_projectDir i) (value (metadata i) "grass_dbase");
     location := value (metadata i) "grass_location";
     mapset := value (metadata i) "grass_mapset" |}.

Definition cf_request (i : Invocation) (cellsize : pyfloat) : cf_args :=
  {| cf_prog :=
       os_path_join (context_projectDir i) (value (metadata i) "cf_bin");
     cf_out :=
       os_path_join (RHESSYS_FLOW (stage_paths i))
         (value (metadata i) "worldfile");
     cf_template :=
       os_path_join (RHESSYS_TEMPLATES (stage_paths i))
         (value (metadata i) "template");
     cf_dem := value (grassMetadata i) "dem_rast";
     cf_slope := value (grassMetadata i) "slope_rast";
     cf_stream := value (grassMetadata i) "streams_rast";
     cf_road :=
       if routeRoads (args i) then value (grassMetadata i) "roads_rast"
       else value (grassMetadata i) "zero_rast";
     cf_roof :=
       if routeRoofs (args i)
       then Some (value (grassMetadata i) "roof_connectivity_rast")
       else None;
     cf_impervious :=
       if routeRoofs (args i)
       then Some (value (grassMetadata i) "impervious_rast")
       else None;
     cf_cellsize := cellsize |}.

Definition warning (i : Invocation) (x y : pyfloat) : list event :=
  if float_ne x y then [StdoutWrite (resolution_warning x y)] else [].

Definition prints (i : Invocation) (x : pyfloat) : list event :=
  [Print (cf_template (cf_request i x)); Print (cf_out (cf_request i x))].

Definition commit (i : Invocation) : list event :=
  let names := flowtable_names i (value (metadata i) "worldfile") in
  [WriteRHESSysEntry "surface_flowtable" names.1;
   WriteRHESSysEntry "subsurface_flowtable" names.2;
   AppendProcessingHistoryItem (cmdline i)].

(** The run from the external call on, for resolutions [x] and [y]. *)
Definition invocation_run (i : Invocation) (x y : pyfloat) : Script unit :=
  let g := grass_session i in
  let a := cf_request i x in
  match read_command g a with
  | None =>
      (warning i x y ++ prints i x ++ [ReadCommand g a None],
       inl (SysExit "createflowpaths failed, returning None"))
  | Some r =>
      (warning i x y ++ prints i x ++ ReadCommand g a (Some r) :: commit i,
       inr ())
  end.

Definition summary (i : Invocation) : Script unit :=
  match first_missing i with
  | Some r => ([], inl (SysExit (missing i (req_what r))))
  | None =>
    let sx := value (studyArea i) "dem_res_x" in
    let sy := value (studyArea i) "dem_res_y" in
    match float sx with
    | None => ([], inl (Uncaught (ValueError sx)))
    | Some x =>
      match float sy with
      | None => ([], inl (Uncaught (ValueError sy)))
      | Some y =>
        if float_ne x y && negb (force (args i)) then
          (warning i x y,
           inl (SysExit "Exiting.  Use --force option to override"))
        else
          invocation_run i x y
      end
    end
  end.

(** The run gets as far as the external tool: every check passes, both
    resolutions convert, and they agree or [--force] is given. *)
Definition reaches_tool (i : Invocation) : Prop :=
  first_missing i = None ∧
  ∃ x y,
    float (value (studyArea i) "dem_res_x") = Some x ∧
    float (value (studyArea i) "dem_res_y") = Some y ∧
    (float_ne x y = false ∨ force (args i) = true).

(** The same invocation with other metadata values. *)
Definition with_zero_rast (i : Invocation) (v : string) : Invocation :=
  {| args := args i; cmdline := cmdline i;
     context_projectDir := context_projectDir i;
     studyArea := studyArea i;
     grassMetadata := <["zero_rast" := v]> (grassMetadata i);
     metadata := metadata i |}.


End Contract.

(** ** Sample projects with something missing or wrong *)

Module Samples.
Import Decimal.

Definition no_template : Invocation :=
  sample false false false "10.0" "10.0"
    (delete "template" (sample_metadata "bin/cf")) sample_grass.

Definition several_missing : Invocation :=
  sample true true false "10.0" "10.0"
    (delete "template" (delete "grass_mapset" (sample_metadata "bin/cf")))
    (delete "roads_rast" sample_grass).

Definition no_zero_rast : Invocation :=
  sample true false false "10.0" "10.0" (sample_metadata "bin/cf")
    (delete "zero_rast" sample_grass).

Definition bad_resolution : Invocation := good true true true "10.0" "ten".


Definition template_requirement : requirement :=
  {| req_section := RHESSysSection; req_key := "template";
     req_what := "a template" |}.

End Samples.

(** ** What a run shows, and runs to compare it with *)

Section Observations.
Context `{PyFloat} `{!Collaborators}.

(** The lines a run printed, what it wrote to standard output, and the
    external calls it made, in order. *)
Definition printed (tr : list event) : list string :=
  omap (λ ev, match ev with Print s => Some s | _ => None end) tr.

Definition stdout_written (tr : list event) : list string :=
  omap (λ ev, match ev with StdoutWrite s => Some s | _ => None end) tr.

Definition calls (tr : list event)
  : list (grass_config * cf_args * option string) :=
  omap (λ ev, match ev with
              | ReadCommand g a r => Some (g, a, r)
              | _ => None
              end) tr.

(** The same invocation with [--force] given or not. *)
Definition with_force (i : Invocation) (b : bool) : Invocation :=
  {| args := {| projectDir := projectDir (args i);
                routeRoads := routeRoads (args i);
                routeRoofs := routeRoofs (args i);
                force := b |};
     cmdline := cmdline i;
     context_projectDir := context_projectDir i;
     studyArea := studyArea i;
     grassMetadata := grassMetadata i;
     metadata := metadata i |}.

(** Two invocations with the same command line and project directory whose
    metadata agree on every key the checks look at. *)
Definition same_inputs (i j : Invocation) : Prop :=
  args i = args j ∧ cmdline i = cmdline j ∧
  context_projectDir i = context_projectDir j ∧
  ∀ q, q ∈ check_order (args i) →
    section_of i (req_section q) !! req_key q
    = section_of j (req_section q) !! req_key q.

End Observations.

Module Variants.
Import Decimal.

(** A project whose executable, template and worldfile are stored as
    absolute paths. *)
Definition absolute_paths : Invocation :=
  sample false false false "10.0" "10.0"
    (<["cf_bin" := "/opt/cf"]> (<["template" := "/etc/flow.template"]>
       (<["worldfile" := "/tmp/world"]> (sample_metadata "bin/cf"))))
    sample_grass.

(** The good project with other things in its metadata: no optional
    rasters, and entries the script never asks for. *)
Definition cluttered : Invocation :=
  sample false false false "10.0" "10.0"
    (<["paramdb" := "params.sqlite"]> (sample_metadata "bin/cf"))
    (<["landcover_rast" := "landcover"]>
       (delete "roads_rast" (delete "impervious_rast" sample_grass))).

(** A project for [--routeRoofs] without the impervious raster. *)
Definition no_impervious : Invocation :=
  sample false true false "10.0" "10.0" (sample_metadata "bin/cf")
    (delete "impervious_rast" sample_grass).

End Variants.

(** ** The script comes to its decision tree *)

Section Refinement.
Context `{PyFloat} `{!Collaborators}.

Lemma bind_ret {A B} (a : A) (f : A → Script B) : mret a ≫= f = f a.
Proof. unfold mbind, Script_bind, mret, Script_ret. by destruct (f a). Qed.

(** Nothing runs after [sys.exit] or an uncaught exception. *)
Lemma bind_sys_exit {A B} (msg : string) (f : A → Script B) :
  sys_exit msg ≫= f = sys_exit msg.
Proof. reflexivity. Qed.

Lemma bind_raise {A B} (e : exn) (f : A → Script B) : raise e ≫= f = raise e.
Proof. reflexivity. Qed.

Ltac run_script :=
  unfold mbind, Script_bind, mret, Script_ret, sys_exit, raise, tell;
  cbn -[missing os_path_join resolution_warning].

Lemma check_metadata_summary (i : Invocation) :
  check_metadata i
  = match first_missing i with
    | Some q => sys_exit (missing i (req_what q))
    | None => mret ()
    end.
Proof.
  destruct i as [[pd rr rf fc] cl cpd sa gm md].
  unfold first_missing, check_order, check_metadata, absent, present,
    conditional, exit_unless_in.
  run_script.
  repeat match goal with
  | |- context [?d !! ?k] => destruct (d !! k) eqn:?; [|reflexivity]
  end.
  destruct rr, rf; run_script;
  repeat match goal with
  | |- context [?d !! ?k] => destruct (d !! k) eqn:?; [|reflexivity]
  end.
  all: reflexivity.
Qed.

Lemma main_summary (i : Invocation) : main i = summary i.
Proof.
  destruct i as [[pd rr rf fc] cl cpd sa gm md].
  unfold main, summary, first_missing, check_order, check_metadata,
    check_resolution, absent, present, conditional, select_roads, select_roofs,
    exit_unless_in, getitem, to_float, invocation_run, prints, commit,
    warning, flowtable_names.
  unfold cf_request, grass_session, stage_paths, value.
  run_script.
  repeat match goal with
  | |- context [?d !! ?k] => destruct (d !! k) eqn:?; [|reflexivity]
  end.
  destruct rr, rf; run_script;
  repeat match goal with
  | |- context [?d !! ?k] => destruct (d !! k) eqn:?; [|reflexivity]
  end.
  all: destruct (float _) as [x|]; [|reflexivity].
  all: destruct (float _) as [y|]; [|reflexivity].
  all: destruct (float_ne x y), fc; try reflexivity.
  all: run_script; destruct (read_command _ _); reflexivity.
Qed.
End Refinement.

(** ** Properties of the stage *)

Section Properties.
Context `{PyFloat} `{!Collaborators}.
Implicit Types (i : Invocation) (q : requirement) (tr : list event).

(** *** The first failing check *)

Lemma find_first {A} (f : A → bool) (l : list A) (x : A) :
  List.find f l = Some x →
  ∃ before after,
    l = before ++ x :: after ∧ (∀ y, y ∈ before → f y = false) ∧ f x = true.
Proof.
  induction l as [|a l IH]; simpl; [done|].
  destruct (f a) eqn:Hfa.
  - intros [= ->]. exists [], l. split_and!; [done| |done].
    intros y Hy. by apply elem_of_nil in Hy.
  - intros Hx. destruct (IH Hx) as (b & c & -> & Hb & Hfx).
    exists (a :: b), c. split_and!; [done| |done].
    intros y [->|Hy]%elem_of_cons; auto.
Qed.

Lemma find_none_all {A} (f : A → bool) (l : list A) :
  List.find f l = None ↔ ∀ y, y ∈ l → f y = false.
Proof.
  induction l as [|a l IH]; simpl.
  - split; [|done]. intros _ y Hy. by apply elem_of_nil in Hy.
  - destruct (f a) eqn:Hfa.
    + split; [done|]. intros Hall. specialize (Hall a). rewrite Hfa in Hall.
      discriminate Hall. apply elem_of_cons. by left.
    + rewrite IH. split.
      * intros Hall y [->|Hy]%elem_of_cons; auto.
      * intros Hall y Hy. apply Hall, elem_of_cons. by right.
Qed.

Lemma absent_present i q : absent i q = false ↔ present i q = true.
Proof. unfold absent. by destruct (present i q). Qed.

Lemma first_missing_None i :
  first_missing i = None ↔ ∀ q, q ∈ check_order (args i) → present i q = true.
Proof.
  unfold first_missing. rewrite find_none_all.
  split; intros Hall q Hq; apply absent_present; auto.
Qed.

Lemma first_missing_Some i q :
  q ∈ check_order (args i) → present i q = false →
  ∃ q0, first_missing i = Some q0.
Proof.
  intros Hq Hp. destruct (first_missing i) as [q0|] eqn:Hfm; [eauto|].
  rewrite first_missing_None in Hfm. rewrite (Hfm q Hq) in Hp. discriminate.
Qed.

Lemma present_lookup i q :
  present i q = true →
  section_of i (req_section q) !! req_key q
    = Some (value (section_of i (req_section q)) (req_key q)).
Proof.
  unfold present, value.
  by destruct (section_of i (req_section q) !! req_key q).
Qed.

Lemma unconditional_checked (a : Args) q :
  q ∈ unconditional → q ∈ check_order a.
Proof. intros Hq. apply elem_of_app. by left. Qed.

(** *** What a run comes to *)

Lemma main_missing i q :
  first_missing i = Some q →
  main i = ([], inl (SysExit (missing i (req_what q)))).
Proof. intros Hfm. rewrite main_summary. unfold summary. by rewrite Hfm. Qed.

Lemma main_reaches i x y :
  first_missing i = None →
  float (value (studyArea i) "dem_res_x") = Some x →
  float (value (studyArea i) "dem_res_y") = Some y →
  float_ne x y = false ∨ force (args i) = true →
  main i = invocation_run i x y.
Proof.
  intros Hfm Hx Hy Hgo. rewrite main_summary. unfold summary.
  rewrite Hfm, Hx, Hy. by destruct Hgo as [-> | ->]; [|rewrite andb_false_r].
Qed.

Lemma invocation_run_invoked i x y :
  ReadCommand (grass_session i) (cf_request i x)
    (read_command (grass_session i) (cf_request i x))
  ∈ (invocation_run i x y).1.
Proof.
  unfold invocation_run.
  destruct (read_command _ _); simpl; rewrite !elem_of_app, !elem_of_cons; auto.
Qed.

Lemma warning_not_invocation i x y g a r : ReadCommand g a r ∉ warning i x y.
Proof.
  unfold warning. destruct (float_ne x y).
  - by intros [= ]%list_elem_of_singleton.
  - apply not_elem_of_nil.
Qed.

Lemma invocation_run_inv i x y g a r :
  ReadCommand g a r ∈ (invocation_run i x y).1 →
  g = grass_session i ∧ a = cf_request i x ∧ r = read_command g a.
Proof.
  unfold invocation_run, prints, commit.
  destruct (read_command _ _) eqn:Hr; simpl.
  all: rewrite !elem_of_app, !elem_of_cons, ?elem_of_nil.
  all: intros Hin; destruct_or!; try done.
  all: try (by apply warning_not_invocation in Hin).
  all: by simplify_eq.
Qed.

(** An external call in the trace means the run passed every check. *)
Lemma main_invoked_inv i g a r :
  ReadCommand g a r ∈ (main i).1 →
  first_missing i = None ∧
  ∃ x y,
    float (value (studyArea i) "dem_res_x") = Some x ∧
    float (value (studyArea i) "dem_res_y") = Some y ∧
    (float_ne x y = false ∨ force (args i) = true) ∧
    main i = invocation_run i x y.
Proof.
  rewrite main_summary. unfold summary.
  destruct (first_missing i); simpl; [by intros ?%elem_of_nil|].
  destruct (float (value (studyArea i) "dem_res_x")) as [x|];
    simpl; [|by intros ?%elem_of_nil].
  destruct (float (value (studyArea i) "dem_res_y")) as [y|];
    simpl; [|by intros ?%elem_of_nil].
  destruct (float_ne x y) eqn:Hne, (force (args i)) eqn:Hf; simpl.
  2: { intros Hin. exfalso. revert Hin. unfold warning. rewrite Hne.
       by intros [= ]%list_elem_of_singleton. }
  all: intros _; split; [done|]; exists x, y; split_and!; auto.
Qed.

(** *** Strings *)

Lemma string_app_assoc (s1 s2 s3 : string) :
  (s1 +:+ s2) +:+ s3 = s1 +:+ s2 +:+ s3.
Proof.
  induction s1 as [|c s1 IH]; [done|].
  change (String c ((s1 +:+ s2) +:+ s3) = String c (s1 +:+ s2 +:+ s3)).
  by rewrite IH.
Qed.

Lemma string_app_nil_r (s : string) : s +:+ "" = s.
Proof.
  induction s as [|c s IH]; [done|].
  change (String c (s +:+ "") = String c s). by rewrite IH.
Qed.

Lemma contains_here (pre sub post : string) :
  contains (pre +:+ sub +:+ post) sub.
Proof. by exists pre, post. Qed.

Lemma contains_start (sub post : string) : contains (sub +:+ post) sub.
Proof. by exists "", post. Qed.

Lemma contains_end (pre sub : string) : contains (pre +:+ sub) sub.
Proof. exists pre, "". by rewrite string_app_nil_r. Qed.

Lemma contains_app_r (p s sub : string) :
  contains s sub → contains (p +:+ s) sub.
Proof.
  intros (pre & post & ->). exists (p +:+ pre), post.
  by rewrite string_app_assoc.
Qed.

Lemma missing_names_dir i what : contains (missing i what) (context_projectDir i).
Proof. apply contains_here. Qed.

Lemma missing_names_what i what : contains (missing i what) what.
Proof. unfold missing. do 2 apply contains_app_r. apply contains_end. Qed.

Lemma missing_inj i : Inj (=) (=) (missing i).
Proof. intros w1 w2 Hm. unfold missing in Hm. by repeat apply (inj _) in Hm. Qed.

(** No two requirements are described by the same words. *)
Lemma req_what_inj q1 q2 :
  q1 ∈ all_requirements → q2 ∈ all_requirements →
  req_what q1 = req_what q2 → q1 = q2.
Proof.
  assert (Forall (λ q1, Forall (λ q2, req_what q1 = req_what q2 → q1 = q2)
                          all_requirements) all_requirements) as Hall.
  { apply (bool_decide_unpack _). by vm_compute. }
  rewrite Forall_forall in Hall. intros H1 H2.
  specialize (Hall q1 H1). rewrite Forall_forall in Hall. by apply Hall.
Qed.

Lemma check_order_all (a : Args) q : q ∈ check_order a → q ∈ all_requirements.
Proof.
  unfold check_order, all_requirements.
  rewrite !elem_of_app. intros [?|Hcond]; [by left|right].
  revert Hcond. unfold conditional; simpl.
  destruct (routeRoads a), (routeRoofs a); simpl;
    rewrite ?elem_of_cons, ?elem_of_nil; tauto.
Qed.

Lemma find_app {A} (f : A → bool) (l1 l2 : list A) :
  List.find f (l1 ++ l2)
  = match List.find f l1 with Some x => Some x | None => List.find f l2 end.
Proof. induction l1 as [|a l1 IH]; simpl; [done|]. by destruct (f a). Qed.

(** With an unconditional key missing, the first failing check is an
    unconditional one. *)
Lemma first_missing_unconditional i q :
  q ∈ unconditional → present i q = false →
  ∃ q0, first_missing i = Some q0 ∧ q0 ∈ unconditional ∧ present i q0 = false.
Proof.
  intros Hq Hp. unfold first_missing, check_order. rewrite find_app.
  destruct (List.find (absent i) unconditional) as [q0|] eqn:Hf.
  - exists q0. apply find_some in Hf as [Hin Habs]. split_and!; [done| |].
    + by apply list_elem_of_In.
    + unfold absent in Habs. by destruct (present i q0).
  - rewrite find_none_all in Hf. specialize (Hf q Hq).
    unfold absent in Hf. rewrite Hp in Hf. discriminate.
Qed.


(** The first failing check splits the order of the checks: everything
    before it is present, and it is not. *)
Lemma first_missing_split i q0 :
  first_missing i = Some q0 →
  ∃ before after,
    check_order (args i) = before ++ q0 :: after ∧
    (∀ q', q' ∈ before → present i q' = true) ∧
    present i q0 = false.
Proof.
  intros Hfm. apply find_first in Hfm as (b & c & Ho & Hb & Hq0).
  exists b, c. split_and!; [done| |].
  - intros q' Hq'. by apply absent_present, Hb.
  - unfold absent in Hq0. by destruct (present i q0).
Qed.


(** Every external call in the trace is the one the metadata determines. *)
Lemma main_invocations i g a r :
  ReadCommand g a r ∈ (main i).1 →
  first_missing i = None ∧
  ∃ x, float (value (studyArea i) "dem_res_x") = Some x ∧
       g = grass_session i ∧ a = cf_request i x ∧ r = read_command g a.
Proof.
  intros Hin.
  destruct (main_invoked_inv i g a r Hin) as (Hfm & x & y & Hx & _ & _ & Hrun).
  rewrite Hrun in Hin. apply invocation_run_inv in Hin as (-> & -> & ->).
  split; [done|]. by exists x.
Qed.

Lemma reaches_invoked i :
  reaches_tool i → ∃ g a r, ReadCommand g a r ∈ (main i).1.
Proof.
  intros (Hfm & x & y & Hx & Hy & Hgo).
  rewrite (main_reaches i x y Hfm Hx Hy Hgo).
  eexists _, _, _. apply invocation_run_invoked.
Qed.

(** A key whose check passed is there, with its value. *)
Lemma passed_lookup i q :
  first_missing i = None → q ∈ check_order (args i) →
  section_of i (req_section q) !! req_key q
    = Some (value (section_of i (req_section q)) (req_key q)).
Proof.
  intros Hfm Hq. apply present_lookup.
  by apply (proj1 (first_missing_None i) Hfm).
Qed.

(** *** What a run writes *)

Lemma invocation_run_failure i x y :
  read_command (grass_session i) (cf_request i x) = None →
  (invocation_run i x y).2
    = inl (SysExit ("createflowpaths failed, returning " +:+ format_s None)) ∧
  wrote_metadata (invocation_run i x y).1 = false ∧
  entries_written (invocation_run i x y).1 = [].
Proof.
  intros Hr. unfold invocation_run, warning, prints. rewrite Hr.
  by destruct (float_ne x y).
Qed.

Lemma invocation_run_success i x y s :
  read_command (grass_session i) (cf_request i x) = Some s →
  (invocation_run i x y).2 = inr () ∧
  entries_written (invocation_run i x y).1
    = [("surface_flowtable",
        (flowtable_names i (value (metadata i) "worldfile")).1);
       ("subsurface_flowtable",
        (flowtable_names i (value (metadata i) "worldfile")).2)] ∧
  history_appended (invocation_run i x y).1 = [cmdline i].
Proof.
  intros Hr. unfold invocation_run, warning, prints, commit. rewrite Hr.
  by destruct (float_ne x y).
Qed.

Lemma success_or_not tr :
  (∃ g a s, ReadCommand g a (Some s) ∈ tr) ∨
  (∀ g a s, ReadCommand g a (Some s) ∉ tr).
Proof.
  induction tr as [|ev tr IH].
  - right. intros g a s. apply not_elem_of_nil.
  - destruct IH as [(g & a & s & Hin)|Hno].
    { left. exists g, a, s. apply elem_of_cons; auto. }
    destruct ev as [| |g a [s|]| |].
    3: { left. exists g, a, s. apply elem_of_cons; auto. }
    all: right; intros g' a' s' [Heq|Hin]%elem_of_cons;
      [discriminate|by apply Hno in Hin].
Qed.

(** A run without a successful external call writes nothing. *)
Lemma main_quiet i :
  (∀ g a s, ReadCommand g a (Some s) ∉ (main i).1) →
  wrote_metadata (main i).1 = false ∧ entries_written (main i).1 = [].
Proof.
  rewrite main_summary. unfold summary.
  destruct (first_missing i); [done|].
  destruct (float (value (studyArea i) "dem_res_x")) as [x|]; [|done].
  destruct (float (value (studyArea i) "dem_res_y")) as [y|]; [|done].
  destruct (float_ne x y && negb (force (args i))) eqn:Hstop.
  { unfold warning. by destruct (float_ne x y). }
  destruct (read_command (grass_session i) (cf_request i x)) as [s|] eqn:Hr.
  - intros Hno. exfalso. apply (Hno (grass_session i) (cf_request i x) s).
    rewrite <- Hr. apply invocation_run_invoked.
  - intros _. by destruct (invocation_run_failure i x y Hr) as (_ & ? & ?).
Qed.

(** Every subscript is guarded by a check: no run ends in a [KeyError]. *)
Lemma main_no_key_error i k : (main i).2 ≠ inl (Uncaught (KeyError k)).
Proof.
  rewrite main_summary. unfold summary, invocation_run.
  destruct (first_missing i); [done|].
  destruct (float (value (studyArea i) "dem_res_x")) as [x|]; [|done].
  destruct (float (value (studyArea i) "dem_res_y")) as [y|]; [|done].
  destruct (float_ne x y && negb (force (args i))); [done|].
  by destruct (read_command _ _).
Qed.

(** *** Paths *)




(** ** The specified properties *)

(** C3: when the metadata lacks one of the thirteen unconditionally required
    keys, the run halts with [sys.exit] before it has done anything (so
    before the external tool), and the message names the project directory
    and describes a missing unconditional key, in words no other required
    key shares. *)
Theorem missing_unconditional_key_aborts i q :
  q ∈ unconditional → present i q = false →
  ∃ q0,
    q0 ∈ unconditional ∧ present i q0 = false ∧
    main i = ([], inl (SysExit (missing i (req_what q0)))) ∧
    invoked (main i).1 = false ∧
    contains (missing i (req_what q0)) (context_projectDir i) ∧
    contains (missing i (req_what q0)) (req_what q0) ∧
    (∀ q', q' ∈ all_requirements →
       missing i (req_what q') = missing i (req_what q0) → q' = q0).
Proof.
  intros Hq Hp.
  destruct (first_missing_unconditional i q Hq Hp) as (q0 & Hfm & Hin & Hp0).
  exists q0. rewrite (main_missing i q0 Hfm).
  split_and!; try done.
  - apply missing_names_dir.
  - apply missing_names_what.
  - intros q' Hq' Hm. apply missing_inj in Hm.
    apply req_what_inj; [done| |done].
    apply (check_order_all (args i)), unconditional_checked, Hin.
Qed.


Lemma main_zero_rast_unused i v1 v2 :
  routeRoads (args i) = true →
  main (with_zero_rast i v1) = main (with_zero_rast i v2).
Proof.
  intros Hrr. rewrite !main_summary.
  destruct i as [[pd rr rf fc] cl cpd sa gm md]. simpl in Hrr. subst rr.
  destruct rf.
  all: unfold summary, first_missing, check_order, conditional, absent, present,
    invocation_run, warning, prints, commit, flowtable_names.
  all: unfold cf_request, grass_session, stage_paths, value, with_zero_rast,
    missing.
  all: cbn -[os_path_join resolution_warning lookup insert].
  all: rewrite !lookup_insert_eq; rewrite !lookup_insert_ne by done.
  all: reflexivity.
Qed.

(** C8: a store without [zero_rast] in its GRASS section never gets to the
    external tool, whatever the flags: the run halts at an unconditional
    check having done nothing.  This is so even with [--routeRoads], where
    the zero raster plays no part: the whole run is the same for any two
    values of [zero_rast]. *)
Theorem zero_rast_always_required i :
  grassMetadata i !! "zero_rast" = None →
  (∃ q0, q0 ∈ unconditional ∧ present i q0 = false ∧
         main i = ([], inl (SysExit (missing i (req_what q0)))) ∧
         invoked (main i).1 = false) ∧
  (routeRoads (args i) = true →
     ∀ v1 v2, main (with_zero_rast i v1) = main (with_zero_rast i v2)).
Proof.
  intros Hz. split.
  - destruct (first_missing_unconditional i
      {| req_section := GRASSSection; req_key := "zero_rast";
         req_what := "a GRASS dataset with a zero raster" |})
      as (q0 & Hfm & Hin & Hp0).
    + by apply (bool_decide_unpack _).
    + unfold present; simpl. by rewrite Hz.
    + exists q0. rewrite (main_missing i q0 Hfm). by split_and!.
  - intros Hrr v1 v2. by apply main_zero_rast_unused.
Qed.

(** C5: with [--routeRoads] and no [roads_rast] in the GRASS section, the
    run halts at a presence check having done nothing, so before the
    external tool.  Without the flag, whatever the store holds under
    [roads_rast], every call of the external tool gets the value of
    [zero_rast] as its [road] argument, and a run that passes the checks
    does make that call. *)
Theorem roads_raster_selection i :
  (routeRoads (args i) = true → grassMetadata i !! "roads_rast" = None →
     ∃ q0, present i q0 = false ∧
           main i = ([], inl (SysExit (missing i (req_what q0)))) ∧
           invoked (main i).1 = false) ∧
  (routeRoads (args i) = false →
     (∀ g a r, ReadCommand g a r ∈ (main i).1 →
        grassMetadata i !! "zero_rast" = Some (cf_road a)) ∧
     (reaches_tool i → ∃ g a r, ReadCommand g a r ∈ (main i).1)).
Proof.
  split.
  - intros Hrr Hnone.
    destruct (first_missing_Some i
      {| req_section := GRASSSection; req_key := "roads_rast";
         req_what := "a GRASS dataset with a roads raster" |})
      as [q0 Hfm].
    + unfold check_order, conditional. rewrite Hrr.
      rewrite !elem_of_app, list_elem_of_singleton. auto.
    + unfold present; simpl. by rewrite Hnone.
    + exists q0. rewrite (main_missing i q0 Hfm).
      destruct (first_missing_split i q0 Hfm) as (_ & _ & _ & _ & Hq0).
      by split_and!.
  - intros Hrr. split; [|apply reaches_invoked].
    intros g a r Hin.
    destruct (main_invocations i g a r Hin) as (Hfm & x & _ & _ & -> & _).
    unfold cf_request; simpl. rewrite Hrr.
    apply (passed_lookup i
      {| req_section := GRASSSection; req_key := "zero_rast";
         req_what := "a GRASS dataset with a zero raster" |} Hfm).
    apply unconditional_checked. by apply (bool_decide_unpack _).
Qed.

(** C9: without [--routeRoofs], every call of the external tool has [None]
    for both its [roof] and its [impervious] argument, whatever the GRASS
    section holds under [roof_connectivity_rast] and [impervious_rast]; and
    a run that passes the checks does make that call. *)
Theorem roof_arguments_null_without_flag i :
  routeRoofs (args i) = false →
  (∀ g a r, ReadCommand g a r ∈ (main i).1 →
     cf_roof a = None ∧ cf_impervious a = None) ∧
  (reaches_tool i → ∃ g a r, ReadCommand g a r ∈ (main i).1).
Proof.
  intros Hrf. split; [|apply reaches_invoked].
  intros g a r Hin.
  destruct (main_invocations i g a r Hin) as (_ & x & _ & _ & -> & _).
  unfold cf_request; simpl. by rewrite Hrf.
Qed.

(** C1: the entries [surface_flowtable] and [subsurface_flowtable] are
    written exactly when the call of [createflowpaths] gave a result other
    than [None].  The result logged with a call is what the tool returned.
    On [None] the run halts with [sys.exit], the message ends with the
    result as ["%s"] prints it, and no metadata is written.  On any other
    result the run ends normally, having written the two entries with the
    names computed from [worldfile] and appended the command line to the
    processing history.  A run that passes the checks does call the tool. *)
Theorem postconditions_iff_success i :
  ((∃ v, ("surface_flowtable", v) ∈ entries_written (main i).1) ↔
     ∃ g a s, ReadCommand g a (Some s) ∈ (main i).1) ∧
  ((∃ v, ("subsurface_flowtable", v) ∈ entries_written (main i).1) ↔
     ∃ g a s, ReadCommand g a (Some s) ∈ (main i).1) ∧
  (∀ g a r, ReadCommand g a r ∈ (main i).1 → r = read_command g a) ∧
  (∀ g a, ReadCommand g a None ∈ (main i).1 →
     (main i).2
       = inl (SysExit ("createflowpaths failed, returning " +:+ format_s None)) ∧
     wrote_metadata (main i).1 = false) ∧
  (∀ g a s, ReadCommand g a (Some s) ∈ (main i).1 →
     ∃ base,
       metadata i !! "worldfile" = Some base ∧
       (main i).2 = inr () ∧
       entries_written (main i).1
         = [("surface_flowtable", (flowtable_names i base).1);
            ("subsurface_flowtable", (flowtable_names i base).2)] ∧
       history_appended (main i).1 = [cmdline i]) ∧
  (reaches_tool i → ∃ g a r, ReadCommand g a r ∈ (main i).1).
Proof.
  assert (∀ g a s, ReadCommand g a (Some s) ∈ (main i).1 →
     ∃ base,
       metadata i !! "worldfile" = Some base ∧
       (main i).2 = inr () ∧
       entries_written (main i).1
         = [("surface_flowtable", (flowtable_names i base).1);
            ("subsurface_flowtable", (flowtable_names i base).2)] ∧
       history_appended (main i).1 = [cmdline i]) as Hok.
  { intros g a s Hin.
    destruct (main_invoked_inv i g a _ Hin) as (Hfm & x & y & _ & _ & _ & Hrun).
    rewrite Hrun in *. apply invocation_run_inv in Hin as (-> & -> & Hr).
    symmetry in Hr. exists (value (metadata i) "worldfile"). split.
    - apply (passed_lookup i
        {| req_section := RHESSysSection; req_key := "worldfile";
           req_what := "a worldfile" |} Hfm).
      apply unconditional_checked. by apply (bool_decide_unpack _).
    - by apply (invocation_run_success i x y s). }
  assert (∀ k, (∃ v, (k, v) ∈ entries_written (main i).1) →
               ∃ g a s, ReadCommand g a (Some s) ∈ (main i).1) as Hwritten.
  { intros k [v Hv].
    destruct (success_or_not (main i).1) as [Hyes|Hno]; [done|].
    apply main_quiet in Hno as [_ Hnil]. rewrite Hnil in Hv.
    by apply elem_of_nil in Hv. }
  split_and!.
  - split; [apply Hwritten|]. intros (g & a & s & Hin).
    destruct (Hok g a s Hin) as (base & _ & _ & -> & _). eexists.
    apply elem_of_cons; eauto.
  - split; [apply Hwritten|]. intros (g & a & s & Hin).
    destruct (Hok g a s Hin) as (base & _ & _ & -> & _). eexists.
    apply elem_of_cons; right. apply elem_of_cons; eauto.
  - intros g a r Hin.
    by destruct (main_invocations i g a r Hin) as (_ & x & _ & _ & _ & ?).
  - intros g a Hin.
    destruct (main_invoked_inv i g a _ Hin) as (_ & x & y & _ & _ & _ & Hrun).
    rewrite Hrun in *. apply invocation_run_inv in Hin as (-> & -> & Hr).
    symmetry in Hr. by destruct (invocation_run_failure i x y Hr) as (? & ? & _).
  - apply Hok.
  - apply reaches_invoked.
Qed.

(** C4: with [--routeRoofs] the two flow-table names are the distinct
    strings [base_surface.flow] and [base_subsurface.flow]; without it both
    are [base.flow].  Here [base] is the value of [worldfile], and these are
    the names a run writes to the metadata, under [surface_flowtable] and
    [subsurface_flowtable], once the external tool has succeeded. *)
Theorem flowtable_names_by_flag i base :
  metadata i !! "worldfile" = Some base →
  (routeRoofs (args i) = true →
     flowtable_names i base
       = (base +:+ "_surface.flow", base +:+ "_subsurface.flow") ∧
     (flowtable_names i base).1 ≠ (flowtable_names i base).2) ∧
  (routeRoofs (args i) = false →
     flowtable_names i base = (base +:+ ".flow", base +:+ ".flow")) ∧
  (∀ g a s, ReadCommand g a (Some s) ∈ (main i).1 →
     entries_written (main i).1
       = [("surface_flowtable", (flowtable_names i base).1);
          ("subsurface_flowtable", (flowtable_names i base).2)]).
Proof.
  intros Hbase. split_and!.
  - intros Hrf. unfold flowtable_names. rewrite Hrf. split; [done|]. simpl.
    intros Heq. apply (inj _) in Heq. discriminate.
  - intros Hrf. unfold flowtable_names. by rewrite Hrf.
  - intros g a s Hin.
    destruct (main_invoked_inv i g a _ Hin) as (_ & x & y & _ & _ & _ & Hrun).
    rewrite Hrun in *. apply invocation_run_inv in Hin as (-> & -> & Hr).
    symmetry in Hr. destruct (invocation_run_success i x y s Hr) as (_ & -> & _).
    unfold value. by rewrite Hbase.
Qed.

(** C2: when the two resolutions convert to floats that [!=] tells apart
    and [--force] is not given, the external tool is never called and the
    run ends in [sys.exit].  In a run that gets past the presence checks the
    script first writes a warning that shows both values; without [--force]
    that warning is all the run does before it halts; with [--force] the
    run goes on, calls the tool, and passes the float of [dem_res_x] as
    [cellsize]. *)
Theorem resolution_mismatch i sx sy x y :
  studyArea i !! "dem_res_x" = Some sx → float sx = Some x →
  studyArea i !! "dem_res_y" = Some sy → float sy = Some y →
  float_ne x y = true →
  contains (resolution_warning x y) (format_f x) ∧
  contains (resolution_warning x y) (format_f y) ∧
  (force (args i) = false →
     invoked (main i).1 = false ∧ ∃ msg, (main i).2 = inl (SysExit msg)) ∧
  (first_missing i = None →
     head (main i).1 = Some (StdoutWrite (resolution_warning x y)) ∧
     (force (args i) = false →
        main i = ([StdoutWrite (resolution_warning x y)],
                  inl (SysExit "Exiting.  Use --force option to override"))) ∧
     (force (args i) = true →
        (∃ g a r, ReadCommand g a r ∈ (main i).1) ∧
        (∀ g a r, ReadCommand g a r ∈ (main i).1 → cf_cellsize a = x))).
Proof.
  intros Hsx Hx Hsy Hy Hne.
  assert (float (value (studyArea i) "dem_res_x") = Some x) as Hx'.
  { unfold value. by rewrite Hsx. }
  assert (float (value (studyArea i) "dem_res_y") = Some y) as Hy'.
  { unfold value. by rewrite Hsy. }
  split_and!.
  - apply contains_here.
  - unfold resolution_warning. do 3 apply contains_app_r. apply contains_start.
  - intros Hforce. rewrite main_summary. unfold summary, warning.
    destruct (first_missing i); [by eauto|].
    rewrite Hx', Hy', Hne, Hforce. by eauto.
  - intros Hfm. split_and!.
    + rewrite main_summary. unfold summary, invocation_run, warning.
      rewrite Hfm, Hx', Hy', Hne.
      destruct (force (args i)); [|done].
      by destruct (read_command _ _).
    + intros Hforce. rewrite main_summary. unfold summary, warning.
      by rewrite Hfm, Hx', Hy', Hne, Hforce.
    + intros Hforce.
      assert (main i = invocation_run i x y) as Hrun.
      { apply main_reaches; auto. }
      split.
      * rewrite Hrun. eexists _, _, _. apply invocation_run_invoked.
      * intros g a r Hin.
        destruct (main_invocations i g a r Hin) as (_ & x' & Hx'' & _ & -> & _).
        rewrite Hx' in Hx''. by injection Hx'' as <-.
Qed.

(** C10: the presence checks look at keys only.  When [dem_res_x] or
    [dem_res_y] is there with a value [float] rejects, the external tool is
    never called and no metadata is written.  If every presence check
    passes, the checks end normally and the run then stops on the
    [ValueError] of the conversion, which nothing catches, having produced
    no event; otherwise it has already halted at the first failing check. *)
Theorem unparsable_resolution_raises i :
  (∃ s, studyArea i !! "dem_res_x" = Some s ∧ float s = None) ∨
  (∃ s, studyArea i !! "dem_res_y" = Some s ∧ float s = None) →
  invoked (main i).1 = false ∧
  wrote_metadata (main i).1 = false ∧
  (first_missing i = None →
     check_metadata i = ([], inr ()) ∧
     ∃ s, (studyArea i !! "dem_res_x" = Some s ∨
           studyArea i !! "dem_res_y" = Some s) ∧
          float s = None ∧
          main i = ([], inl (Uncaught (ValueError s)))) ∧
  (∀ q, first_missing i = Some q →
     main i = ([], inl (SysExit (missing i (req_what q))))).
Proof.
  intros Hbad.
  assert (first_missing i = None →
     ∃ s, (studyArea i !! "dem_res_x" = Some s ∨
           studyArea i !! "dem_res_y" = Some s) ∧
          float s = None ∧
          main i = ([], inl (Uncaught (ValueError s)))) as Hraise.
  { intros Hfm. rewrite main_summary. unfold summary. rewrite Hfm.
    destruct (float (value (studyArea i) "dem_res_x")) as [x|] eqn:Hx.
    - destruct Hbad as [(s & Hs & Hnone)|(s & Hs & Hnone)].
      + unfold value in Hx. rewrite Hs in Hx. simpl in Hx. congruence.
      + unfold value at 1. rewrite Hs. simpl. rewrite Hnone.
        exists s. unfold value. rewrite Hs. auto.
    - exists (value (studyArea i) "dem_res_x"). split_and!; [|done..].
      left. apply (passed_lookup i
        {| req_section := StudyAreaSection; req_key := "dem_res_x";
           req_what := "a DEM x resolution" |} Hfm).
      apply unconditional_checked. by apply (bool_decide_unpack _). }
  destruct (first_missing i) as [q|] eqn:Hfm.
  - rewrite (main_missing i q Hfm). split_and!; try done.
    intros q' [= <-]. done.
  - destruct (Hraise eq_refl) as (s & Hs & Hnone & Hrun).
    rewrite Hrun. split_and!; try done.
    intros _. split; [|by exists s].
    by rewrite check_metadata_summary, Hfm.
Qed.


End Properties.

(** ** Further properties of the script *)

Section Further.
Context `{PyFloat} `{!Collaborators}.
Implicit Types (i j : Invocation) (q : requirement) (tr : list event).

Lemma outputs_warning i x y : Forall (λ ev, is_output ev = true) (warning i x y).
Proof. unfold warning. destruct (float_ne x y); by repeat constructor. Qed.

Lemma outputs_before_call i x y :
  Forall (λ ev, is_output ev = true) (warning i x y ++ prints i x).
Proof.
  apply Forall_app. split; [apply outputs_warning|]. by repeat constructor.
Qed.


(** X2: a run is a stretch of output, then at most one call of the external
    tool, then the metadata writes.  Either it halts having only written to
    standard output; or it halts right after a call that returned [None];
    or the call succeeded and is followed by exactly the write of
    [surface_flowtable], the write of [subsurface_flowtable] and the
    history item, in this order.  So nothing is written to the metadata
    before the tool has run, and the tool is never run twice. *)
Theorem trace_shape i :
  ∃ outs,
    Forall (λ ev, is_output ev = true) outs ∧
    (((main i).1 = outs ∧ ∃ h, (main i).2 = inl h) ∨
     (∃ g a, (main i).1 = outs ++ [ReadCommand g a None] ∧
             ∃ msg, (main i).2 = inl (SysExit msg)) ∨
     (∃ g a s, (main i).1 = outs ++ ReadCommand g a (Some s) :: commit i ∧
               (main i).2 = inr ())).
Proof.
  rewrite main_summary. unfold summary.
  destruct (first_missing i); [exists []; split; [done|left; eauto]|].
  destruct (float (value (studyArea i) "dem_res_x")) as [x|];
    [|exists []; split; [done|left; eauto]].
  destruct (float (value (studyArea i) "dem_res_y")) as [y|];
    [|exists []; split; [done|left; eauto]].
  destruct (float_ne x y && negb (force (args i))).
  { exists (warning i x y). split; [apply outputs_warning|left; eauto]. }
  exists (warning i x y ++ prints i x). split; [apply outputs_before_call|].
  unfold invocation_run. destruct (read_command _ _) as [s|]; simpl.
  - right; right. eexists _, _, s. by rewrite <- app_assoc.
  - right; left. eexists _, _. rewrite <- app_assoc. eauto.
Qed.

Lemma calls_invocation_run i x y :
  calls (invocation_run i x y).1
  = [(grass_session i, cf_request i x,
      read_command (grass_session i) (cf_request i x))].
Proof.
  unfold invocation_run, warning, prints, commit.
  by destruct (float_ne x y), (read_command _ _).
Qed.

Lemma reaches_tool_dec i : reaches_tool i ∨ ¬ reaches_tool i.
Proof.
  unfold reaches_tool.
  destruct (first_missing i); [right; by intros [? _]|].
  destruct (float (value (studyArea i) "dem_res_x")) as [x|];
    [|right; by intros (_ & ? & ? & ? & _)].
  destruct (float (value (studyArea i) "dem_res_y")) as [y|];
    [|right; by intros (_ & ? & ? & _ & ? & _)].
  destruct (float_ne x y) eqn:Hne; [|left; split; [done|]; exists x, y; auto].
  destruct (force (args i)) eqn:Hf; [left; split; [done|]; exists x, y; auto|].
  right. intros (_ & x' & y' & [= <-] & [= <-] & [Hne'|?]); [|done].
  rewrite Hne in Hne'. discriminate.
Qed.

Lemma not_reached_no_call i : ¬ reaches_tool i → calls (main i).1 = [].
Proof.
  intros Hnot. rewrite main_summary. unfold summary.
  destruct (first_missing i) eqn:Hfm; [done|].
  destruct (float (value (studyArea i) "dem_res_x")) as [x|] eqn:Hx; [|done].
  destruct (float (value (studyArea i) "dem_res_y")) as [y|] eqn:Hy; [|done].
  destruct (float_ne x y) eqn:Hne, (force (args i)) eqn:Hf; simpl.
  2: { unfold warning. by rewrite Hne. }
  all: exfalso; apply Hnot; split; [done|]; exists x, y; auto.
Qed.

(** X3: the external tool is called exactly once in a run where every
    presence check passes, both resolutions convert and they agree or
    [--force] is given, and never in any other run: there is no second call
    and no retry after a failure. *)
Theorem tool_called_once_iff_reached i :
  (reaches_tool i ↔ ∃ c, calls (main i).1 = [c]) ∧
  (¬ reaches_tool i ↔ calls (main i).1 = []).
Proof.
  assert (reaches_tool i → ∃ c, calls (main i).1 = [c]) as Hyes.
  { intros (Hfm & x & y & Hx & Hy & Hgo).
    rewrite (main_reaches i x y Hfm Hx Hy Hgo), calls_invocation_run. eauto. }
  split; split; [done| |apply not_reached_no_call|].
  - intros [c Hc]. destruct (reaches_tool_dec i) as [?|Hnot]; [done|].
    apply not_reached_no_call in Hnot. rewrite Hnot in Hc. discriminate.
  - intros Hnil Hreach. destruct (Hyes Hreach) as [c Hc].
    rewrite Hnil in Hc. discriminate.
Qed.

(** X4: the script runs to its end exactly when the external tool was
    called and returned something other than [None]; every other run ends
    in [sys.exit] or in an uncaught exception. *)
Theorem normal_end_iff_tool_succeeded i :
  (main i).2 = inr () ↔ ∃ g a s, ReadCommand g a (Some s) ∈ (main i).1.
Proof.
  split.
  - rewrite main_summary. unfold summary.
    destruct (first_missing i); [done|].
    destruct (float (value (studyArea i) "dem_res_x")) as [x|]; [|done].
    destruct (float (value (studyArea i) "dem_res_y")) as [y|]; [|done].
    destruct (float_ne x y && negb (force (args i))); [done|].
    intros Hend. pose proof (invocation_run_invoked i x y) as Hin.
    unfold invocation_run in Hend.
    destruct (read_command _ _) as [s|]; [|done]. eauto.
  - intros (g & a & s & Hin).
    destruct (main_invoked_inv i g a _ Hin) as (_ & x & y & _ & _ & _ & Hrun).
    rewrite Hrun in *. apply invocation_run_inv in Hin as (-> & -> & Hr).
    symmetry in Hr. by destruct (invocation_run_success i x y s Hr).
Qed.

(** X5: the three ways the script calls [sys.exit] are all there are.  A
    run that ends in [sys.exit] either stopped at a presence check, with the
    message of a required key that is absent and having done nothing; or
    stopped at the resolution check without [--force], before any call of
    the tool; or stopped after a call that returned [None]. *)
Theorem exit_messages i msg :
  (main i).2 = inl (SysExit msg) →
  (∃ q, q ∈ check_order (args i) ∧ present i q = false ∧
        msg = missing i (req_what q) ∧ (main i).1 = []) ∨
  (msg = "Exiting.  Use --force option to override" ∧
   force (args i) = false ∧ first_missing i = None ∧
   invoked (main i).1 = false) ∨
  (msg = "createflowpaths failed, returning None" ∧
   ∃ g a, ReadCommand g a None ∈ (main i).1).
Proof.
  rewrite main_summary. unfold summary.
  destruct (first_missing i) as [q|] eqn:Hfm.
  { intros [= <-]. left. exists q.
    destruct (first_missing_split i q Hfm) as (b & c & Ho & _ & Hq).
    split_and!; [|done..]. rewrite Ho. apply elem_of_app. right.
    apply elem_of_cons. by left. }
  destruct (float (value (studyArea i) "dem_res_x")) as [x|]; [|done].
  destruct (float (value (studyArea i) "dem_res_y")) as [y|]; [|done].
  destruct (float_ne x y) eqn:Hne, (force (args i)) eqn:Hf; simpl.
  2: { intros [= <-]. right; left. unfold warning. by rewrite Hne. }
  all: pose proof (invocation_run_invoked i x y) as Hin.
  all: unfold invocation_run in *.
  all: destruct (read_command _ _) as [s|]; [done|].
  all: intros [= <-]; right; right; split; [done|]; eauto.
Qed.

(** X6: the warning about the resolutions is the only thing the script
    writes with [sys.stdout.write], and it is written exactly in the runs
    that pass every presence check and find two floats that [!=] tells
    apart; when the resolutions agree nothing is written that way. *)
Theorem warning_iff_mismatch i :
  (∀ w, w ∈ stdout_written (main i).1 ↔
     first_missing i = None ∧
     ∃ x y, float (value (studyArea i) "dem_res_x") = Some x ∧
            float (value (studyArea i) "dem_res_y") = Some y ∧
            float_ne x y = true ∧ w = resolution_warning x y).
Proof.
  intros w. rewrite main_summary. unfold summary.
  destruct (first_missing i) as [q|] eqn:Hfm.
  { simpl. split; [by intros ?%elem_of_nil|by intros [? _]]. }
  destruct (float (value (studyArea i) "dem_res_x")) as [x|].
  2: { simpl. split; [by intros ?%elem_of_nil|by intros (_ & ? & ? & ? & _)]. }
  destruct (float (value (studyArea i) "dem_res_y")) as [y|].
  2: { simpl. split; [by intros ?%elem_of_nil|].
       by intros (_ & ? & ? & _ & ? & _). }
  assert (∀ run : Script unit,
            stdout_written run.1
            = (if float_ne x y then [resolution_warning x y] else []) →
            w ∈ stdout_written run.1 ↔
            None = @None requirement ∧
            ∃ x' y', Some x = Some x' ∧ Some y = Some y' ∧
                     float_ne x' y' = true ∧ w = resolution_warning x' y')
    as Hcase.
  { intros run ->. destruct (float_ne x y) eqn:Hne.
    - rewrite list_elem_of_singleton. split.
      + intros ->. split; [done|]. by exists x, y.
      + by intros (_ & x' & y' & [= <-] & [= <-] & _ & ->).
    - split; [by intros ?%elem_of_nil|].
      intros (_ & x' & y' & [= <-] & [= <-] & Hne' & _).
      rewrite Hne in Hne'. discriminate. }
  apply Hcase. unfold invocation_run, warning, prints, commit.
  by destruct (float_ne x y), (force (args i)), (read_command _ _).
Qed.

(** The requirements the flags add are part of the order of the checks. *)
Lemma roads_checked (a : Args) :
  routeRoads a = true →
  {| req_section := GRASSSection; req_key := "roads_rast";
     req_what := "a GRASS dataset with a roads raster" |} ∈ check_order a.
Proof.
  intros Hrr. unfold check_order, conditional. rewrite Hrr.
  rewrite !elem_of_app, list_elem_of_singleton. auto.
Qed.

Lemma roofs_checked (a : Args) :
  routeRoofs a = true →
  {| req_section := GRASSSection; req_key := "roof_connectivity_rast";
     req_what := "a GRASS dataset with a roofs raster" |} ∈ check_order a ∧
  {| req_section := GRASSSection; req_key := "impervious_rast";
     req_what := "a GRASS dataset with a impervious raster" |} ∈ check_order a.
Proof.
  intros Hrf. unfold check_order, conditional. rewrite Hrf.
  rewrite !elem_of_app, !elem_of_cons. auto 6.
Qed.

(** X7: with [--routeRoads], every call of the external tool gets the
    value stored under [roads_rast] as its [road] argument, and a run that
    passes the checks does make that call. *)
Theorem roads_argument_with_flag i :
  routeRoads (args i) = true →
  (∀ g a r, ReadCommand g a r ∈ (main i).1 →
     grassMetadata i !! "roads_rast" = Some (cf_road a)) ∧
  (reaches_tool i → ∃ g a r, ReadCommand g a r ∈ (main i).1).
Proof.
  intros Hrr. split; [|apply reaches_invoked].
  intros g a r Hin.
  destruct (main_invocations i g a r Hin) as (Hfm & x & _ & _ & -> & _).
  unfold cf_request; simpl. rewrite Hrr.
  by apply (passed_lookup i _ Hfm (roads_checked (args i) Hrr)).
Qed.

(** X8: with [--routeRoofs], every call of the external tool gets the
    values stored under [roof_connectivity_rast] and [impervious_rast] as
    its [roof] and [impervious] arguments, and a run that passes the checks
    does make that call. *)
Theorem roof_arguments_with_flag i :
  routeRoofs (args i) = true →
  (∀ g a r, ReadCommand g a r ∈ (main i).1 →
     grassMetadata i !! "roof_connectivity_rast" = cf_roof a ∧
     grassMetadata i !! "impervious_rast" = cf_impervious a ∧
     is_Some (cf_roof a) ∧ is_Some (cf_impervious a)) ∧
  (reaches_tool i → ∃ g a r, ReadCommand g a r ∈ (main i).1).
Proof.
  intros Hrf. split; [|apply reaches_invoked].
  intros g a r Hin.
  destruct (main_invocations i g a r Hin) as (Hfm & x & _ & _ & -> & _).
  destruct (roofs_checked (args i) Hrf) as [Hroof Himp].
  unfold cf_request; simpl. rewrite Hrf. split_and!; [| |by eexists..].
  - by apply (passed_lookup i _ Hfm Hroof).
  - by apply (passed_lookup i _ Hfm Himp).
Qed.

(** X9: with [--routeRoofs], a store that lacks [roof_connectivity_rast]
    or [impervious_rast] in its GRASS section stops the run at a presence
    check, having done nothing, so before the external tool. *)
Theorem roof_rasters_required_with_flag i :
  routeRoofs (args i) = true →
  grassMetadata i !! "roof_connectivity_rast" = None ∨
  grassMetadata i !! "impervious_rast" = None →
  ∃ q0, present i q0 = false ∧
        main i = ([], inl (SysExit (missing i (req_what q0)))) ∧
        invoked (main i).1 = false.
Proof.
  intros Hrf Hnone.
  destruct (roofs_checked (args i) Hrf) as [Hroof Himp].
  assert (∃ q0, first_missing i = Some q0) as [q0 Hfm].
  { destruct Hnone as [Hnone|Hnone].
    - apply (first_missing_Some i _ Hroof). unfold present; simpl.
      by rewrite Hnone.
    - apply (first_missing_Some i _ Himp). unfold present; simpl.
      by rewrite Hnone. }
  exists q0. rewrite (main_missing i q0 Hfm).
  destruct (first_missing_split i q0 Hfm) as (_ & _ & _ & _ & Hq0).
  by split_and!.
Qed.

(** X10: every call of the external tool is made in the GRASS session
    whose database is [os.path.join] of the project directory and
    [grass_dbase] and whose location and mapset are [grass_location] and
    [grass_mapset], and its [dem], [slope] and [stream] arguments are the
    values stored under [dem_rast], [slope_rast] and [streams_rast]. *)
Theorem call_session_and_rasters i g a r :
  ReadCommand g a r ∈ (main i).1 →
  (∃ dbase, metadata i !! "grass_dbase" = Some dbase ∧
            gisdbase g = os_path_join (context_projectDir i) dbase) ∧
  metadata i !! "grass_location" = Some (location g) ∧
  metadata i !! "grass_mapset" = Some (mapset g) ∧
  grassMetadata i !! "dem_rast" = Some (cf_dem a) ∧
  grassMetadata i !! "slope_rast" = Some (cf_slope a) ∧
  grassMetadata i !! "streams_rast" = Some (cf_stream a).
Proof.
  intros Hin.
  destruct (main_invocations i g a r Hin) as (Hfm & x & _ & -> & -> & _).
  assert (∀ s k what,
    {| req_section := s; req_key := k; req_what := what |} ∈ unconditional →
    section_of i s !! k = Some (value (section_of i s) k)) as Hkey.
  { intros s k what Hu.
    apply (passed_lookup i
      {| req_section := s; req_key := k; req_what := what |} Hfm).
    by apply unconditional_checked. }
  split_and!.
  - eexists. split; [|done].
    by apply (Hkey RHESSysSection _ "a GRASS Dbase"), (bool_decide_unpack _).
  - by apply (Hkey RHESSysSection _ "a GRASS location"), (bool_decide_unpack _).
  - by apply (Hkey RHESSysSection _ "a GRASS mapset"), (bool_decide_unpack _).
  - by apply (Hkey GRASSSection _ "a GRASS dataset with a DEM raster"),
      (bool_decide_unpack _).
  - by apply (Hkey GRASSSection _ "a GRASS dataset with a slope raster"),
      (bool_decide_unpack _).
  - by apply (Hkey GRASSSection _ "a GRASS dataset with a stream raster"),
      (bool_decide_unpack _).
Qed.

(** X11: what the script prints is tied to the call: a run that calls the
    external tool has printed exactly two lines before, the template path
    and then the output path it passes to the tool; a run that never calls
    the tool has printed nothing. *)
Theorem printed_paths i :
  (∀ g a r, ReadCommand g a r ∈ (main i).1 →
     printed (main i).1 = [cf_template a; cf_out a]) ∧
  (invoked (main i).1 = false → printed (main i).1 = []).
Proof.
  split.
  - intros g a r Hin.
    destruct (main_invoked_inv i g a r Hin) as (_ & x & y & _ & _ & _ & Hrun).
    rewrite Hrun in *. apply invocation_run_inv in Hin as (_ & -> & _).
    unfold invocation_run, warning, prints, commit.
    by destruct (float_ne x y), (read_command _ _).
  - rewrite main_summary. unfold summary.
    destruct (first_missing i); [done|].
    destruct (float (value (studyArea i) "dem_res_x")) as [x|]; [|done].
    destruct (float (value (studyArea i) "dem_res_y")) as [y|]; [|done].
    destruct (float_ne x y && negb (force (args i))).
    { intros _. unfold warning. by destruct (float_ne x y). }
    unfold invocation_run, warning, prints, commit.
    by destruct (float_ne x y), (read_command _ _).
Qed.

(** X12: [os.path.join] drops the directory when the second component is
    absolute, so a stored value that starts with [/] is passed to the
    external tool as it is: the executable for [cf_bin], the template for
    [template], the output for [worldfile]. *)
Theorem absolute_values_replace_directory i g a r :
  ReadCommand g a r ∈ (main i).1 →
  (∀ p, metadata i !! "cf_bin" = Some p → startswith_sep p = true →
        cf_prog a = p) ∧
  (∀ p, metadata i !! "template" = Some p → startswith_sep p = true →
        cf_template a = p) ∧
  (∀ p, metadata i !! "worldfile" = Some p → startswith_sep p = true →
        cf_out a = p).
Proof.
  intros Hin.
  destruct (main_invocations i g a r Hin) as (_ & x & _ & _ & -> & _).
  unfold cf_request, value; simpl.
  split_and!; intros p -> Habs; simpl; unfold os_path_join; by rewrite Habs.
Qed.

(** X13: [--force] only overrides the resolution check.  Unless the run
    passes every presence check and finds two floats that [!=] tells apart,
    the run is the same with and without the flag: a missing key or a value
    that does not convert stops it either way. *)
Theorem force_only_overrides_mismatch i :
  ¬ (first_missing i = None ∧
     ∃ x y, float (value (studyArea i) "dem_res_x") = Some x ∧
            float (value (studyArea i) "dem_res_y") = Some y ∧
            float_ne x y = true) →
  main (with_force i true) = main (with_force i false).
Proof.
  intros Hnot. rewrite !main_summary. unfold summary.
  change (first_missing (with_force i true)) with (first_missing i).
  change (first_missing (with_force i false)) with (first_missing i).
  destruct (first_missing i) eqn:Hfm; [done|]. simpl.
  destruct (float (value (studyArea i) "dem_res_x")) as [x|] eqn:Hx; [|done].
  destruct (float (value (studyArea i) "dem_res_y")) as [y|] eqn:Hy; [|done].
  destruct (float_ne x y) eqn:Hne.
  { exfalso. apply Hnot. split; [done|]. by exists x, y. }
  simpl. unfold invocation_run, warning. by rewrite Hne.
Qed.

Lemma find_ext_in {A} (f g : A → bool) (l : list A) :
  (∀ x, x ∈ l → f x = g x) → List.find f l = List.find g l.
Proof.
  induction l as [|a l IH]; intros Hext; simpl; [done|].
  rewrite <- (Hext a) by (apply elem_of_cons; by left).
  destruct (f a); [done|]. apply IH. intros x Hx. apply Hext, elem_of_cons.
  by right.
Qed.

Lemma same_inputs_value i j q :
  same_inputs i j → q ∈ check_order (args i) →
  value (section_of i (req_section q)) (req_key q)
  = value (section_of j (req_section q)) (req_key q).
Proof. intros (_ & _ & _ & Hk) Hq. unfold value. by rewrite (Hk q Hq). Qed.

Lemma same_inputs_unconditional i j s k what :
  same_inputs i j →
  {| req_section := s; req_key := k; req_what := what |} ∈ unconditional →
  value (section_of i s) k = value (section_of j s) k.
Proof.
  intros Hsame Hu.
  apply (same_inputs_value i j
    {| req_section := s; req_key := k; req_what := what |} Hsame).
  by apply unconditional_checked.
Qed.

Lemma same_inputs_study i j k what :
  same_inputs i j →
  {| req_section := StudyAreaSection; req_key := k; req_what := what |}
    ∈ unconditional →
  value (studyArea i) k = value (studyArea j) k.
Proof. apply (same_inputs_unconditional i j StudyAreaSection). Qed.

Lemma same_inputs_rhessys i j k what :
  same_inputs i j →
  {| req_section := RHESSysSection; req_key := k; req_what := what |}
    ∈ unconditional →
  value (metadata i) k = value (metadata j) k.
Proof. apply (same_inputs_unconditional i j RHESSysSection). Qed.

Lemma same_inputs_grass i j k what :
  same_inputs i j →
  {| req_section := GRASSSection; req_key := k; req_what := what |}
    ∈ unconditional →
  value (grassMetadata i) k = value (grassMetadata j) k.
Proof. apply (same_inputs_unconditional i j GRASSSection). Qed.

Lemma same_inputs_first_missing i j :
  same_inputs i j → first_missing i = first_missing j.
Proof.
  intros (Ha & _ & _ & Hk). unfold first_missing. rewrite <- Ha.
  apply find_ext_in. intros q Hq. unfold absent, present.
  by rewrite (Hk q Hq).
Qed.

Lemma same_inputs_cf_request i j x :
  same_inputs i j → cf_request i x = cf_request j x.
Proof.
  intros Hsame. pose proof Hsame as (Ha & _ & Hd & _).
  unfold cf_request, stage_paths. rewrite <- Ha, <- Hd.
  rewrite <- (same_inputs_rhessys i j "cf_bin"
               "a createflowpaths executable" Hsame)
    by by apply (bool_decide_unpack _).
  rewrite <- (same_inputs_rhessys i j "rhessys_dir"
               "a RHESSys directory" Hsame)
    by by apply (bool_decide_unpack _).
  rewrite <- (same_inputs_rhessys i j "worldfile"
               "a worldfile" Hsame)
    by by apply (bool_decide_unpack _).
  rewrite <- (same_inputs_rhessys i j "template"
               "a template" Hsame)
    by by apply (bool_decide_unpack _).
  rewrite <- (same_inputs_grass i j "dem_rast"
               "a GRASS dataset with a DEM raster" Hsame)
    by by apply (bool_decide_unpack _).
  rewrite <- (same_inputs_grass i j "slope_rast"
               "a GRASS dataset with a slope raster" Hsame)
    by by apply (bool_decide_unpack _).
  rewrite <- (same_inputs_grass i j "streams_rast"
               "a GRASS dataset with a stream raster" Hsame)
    by by apply (bool_decide_unpack _).
  rewrite <- (same_inputs_grass i j "zero_rast"
               "a GRASS dataset with a zero raster" Hsame)
    by by apply (bool_decide_unpack _).
  simpl.
  destruct (routeRoads (args i)) eqn:Hrr, (routeRoofs (args i)) eqn:Hrf.
  all: try pose proof (same_inputs_value i j _ Hsame
                         (roads_checked (args i) Hrr)) as Hroads.
  all: try (destruct (roofs_checked (args i) Hrf) as [Hroof Himp];
            pose proof (same_inputs_value i j _ Hsame Hroof) as Hroofs;
            pose proof (same_inputs_value i j _ Hsame Himp) as Himps).
  all: simpl in *; by rewrite ?Hroads, ?Hroofs, ?Himps.
Qed.

(** X14: the run depends on the metadata only through the keys the checks
    look at.  Two invocations with the same arguments, command line and
    project directory whose three sections agree on the thirteen
    unconditional keys and on the keys the given flags ask for run the
    same, whatever else the sections hold; without [--routeRoads] this
    includes anything stored under [roads_rast], and without
    [--routeRoofs] anything under [roof_connectivity_rast] and
    [impervious_rast]. *)
Theorem same_inputs_same_run i j : same_inputs i j → main i = main j.
Proof.
  intros Hsame. pose proof Hsame as (Ha & Hc & Hd & _).
  rewrite !main_summary. unfold summary.
  rewrite <- (same_inputs_first_missing i j Hsame).
  destruct (first_missing i); [unfold missing; by rewrite Hd|].
  rewrite <- (same_inputs_study i j "dem_res_x"
               "a DEM x resolution" Hsame)
    by by apply (bool_decide_unpack _).
  rewrite <- (same_inputs_study i j "dem_res_y"
               "a DEM y resolution" Hsame)
    by by apply (bool_decide_unpack _).
  simpl.
  destruct (float (value (studyArea i) "dem_res_x")) as [x|]; [|done].
  destruct (float (value (studyArea i) "dem_res_y")) as [y|]; [|done].
  rewrite <- Ha.
  destruct (float_ne x y && negb (force (args i))); [done|].
  unfold invocation_run, prints, commit, flowtable_names, grass_session.
  rewrite <- (same_inputs_cf_request i j x Hsame), <- Ha, <- Hc, <- Hd.
  rewrite <- (same_inputs_rhessys i j "grass_dbase"
               "a GRASS Dbase" Hsame)
    by by apply (bool_decide_unpack _).
  rewrite <- (same_inputs_rhessys i j "grass_location"
               "a GRASS location" Hsame)
    by by apply (bool_decide_unpack _).
  rewrite <- (same_inputs_rhessys i j "grass_mapset"
               "a GRASS mapset" Hsame)
    by by apply (bool_decide_unpack _).
  rewrite <- (same_inputs_rhessys i j "worldfile"
               "a worldfile" Hsame)
    by by apply (bool_decide_unpack _).
  reflexivity.
Qed.

End Further.

(** ** The stage run on sample projects *)

Import Decimal Samples.

Example run_succeeds :
  main (good false false false "10.0" "10.00")
  = ([Print "/proj/rhessys/templates/template.txt";
      Print "/proj/rhessys/flow/world";
      ReadCommand
        {| gisdbase := "/proj/GRASSData"; location := "default";
           mapset := "PERMANENT" |}
        {| cf_prog := "/proj/bin/cf"; cf_out := "/proj/rhessys/flow/world";
           cf_template := "/proj/rhessys/templates/template.txt";
           cf_dem := "dem"; cf_slope := "slope"; cf_stream := "streams";
           cf_road := "zero"; cf_roof := None; cf_impervious := None;
           cf_cellsize := 100 # 10 |}
        (Some "");
      WriteRHESSysEntry "surface_flowtable" "world.flow";
      WriteRHESSysEntry "subsurface_flowtable" "world.flow";
      AppendProcessingHistoryItem "CreateFlowtable.py -p /proj"],
     inr ()).
Proof. reflexivity. Qed.

Example run_tool_fails :
  (main failing).2 = inl (SysExit "createflowpaths failed, returning None") ∧
  wrote_metadata (main failing).1 = false ∧
  invoked (main failing).1 = true.
Proof. split_and!; reflexivity. Qed.

Example run_mismatch_aborts :
  main (good false false false "10.0" "10.5")
  = ([StdoutWrite
        "DEM x resolution (10.000000) does not match y resolution (10.500000)"],
     inl (SysExit "Exiting.  Use --force option to override")).
Proof. reflexivity. Qed.

Example run_mismatch_forced :
  ∃ g a,
    (main (good true true true "10.0" "10.5")).1
    = [StdoutWrite
         "DEM x resolution (10.000000) does not match y resolution (10.500000)";
       Print "/proj/rhessys/templates/template.txt";
       Print "/proj/rhessys/flow/world";
       ReadCommand g a (Some "");
       WriteRHESSysEntry "surface_flowtable" "world_surface.flow";
       WriteRHESSysEntry "subsurface_flowtable" "world_subsurface.flow";
       AppendProcessingHistoryItem "CreateFlowtable.py -p /proj"] ∧
    cf_cellsize a = 100 # 10 ∧ cf_road a = "roads" ∧
    cf_roof a = Some "roofs" ∧ cf_impervious a = Some "impervious".
Proof. eexists _, _. split_and!; reflexivity. Qed.

Example run_roads_missing :
  main (sample true false false "10.0" "10.0" (sample_metadata "bin/cf")
          (delete "roads_rast" sample_grass))
  = ([], inl (SysExit
       "Metadata in project directory /proj does not contain a GRASS dataset with a roads raster")).
Proof. reflexivity. Qed.

(** ** The properties on sample projects *)

Lemma resolution_mismatch_witness :
  main (good false false false "10.0" "10.5")
  = ([StdoutWrite (resolution_warning (ratio 100 10) (ratio 105 10))],
     inl (SysExit "Exiting.  Use --force option to override")) ∧
  (∀ g a r, ReadCommand g a r ∈ (main (good false false true "10.0" "10.5")).1 →
     cf_cellsize a = ratio 100 10).
Proof.
  split.
  - apply (resolution_mismatch (good false false false "10.0" "10.5")
             "10.0" "10.5" (ratio 100 10) (ratio 105 10));
      reflexivity.
  - apply (resolution_mismatch (good false false true "10.0" "10.5")
             "10.0" "10.5" (ratio 100 10) (ratio 105 10));
      reflexivity.
Defined.

Lemma good_reaches_tool (roads roofs frc : bool) :
  reaches_tool (good roads roofs frc "10.0" "10.0").
Proof.
  split; [by destruct roads, roofs|].
  exists (ratio 100 10), (ratio 100 10). split_and!; try reflexivity.
  by left.
Defined.

Lemma missing_unconditional_key_aborts_witness :
  ∃ q0, q0 ∈ unconditional ∧ present no_template q0 = false ∧
        main no_template
        = ([], inl (SysExit (missing no_template (req_what q0)))).
Proof.
  destruct (missing_unconditional_key_aborts no_template template_requirement)
    as (q0 & Hin & Hp & Hrun & _).
  - by apply (bool_decide_unpack _).
  - reflexivity.
  - by exists q0.
Defined.

Example run_several_missing :
  main several_missing
  = ([], inl (SysExit
       "Metadata in project directory /proj does not contain a GRASS mapset")).
Proof. reflexivity. Qed.


Lemma zero_rast_always_required_witness :
  routeRoads (args no_zero_rast) = true ∧
  ∃ q0, q0 ∈ unconditional ∧
        main no_zero_rast
        = ([], inl (SysExit (missing no_zero_rast (req_what q0)))).
Proof.
  split; [reflexivity|].
  destruct (zero_rast_always_required no_zero_rast)
    as [(q0 & Hin & _ & Hrun & _) _].
  - reflexivity.
  - by exists q0.
Defined.

Lemma roof_arguments_null_without_flag_witness :
  is_Some (grassMetadata (good true false false "10.0" "10.0")
             !! "roof_connectivity_rast") ∧
  is_Some (grassMetadata (good true false false "10.0" "10.0")
             !! "impervious_rast") ∧
  ∃ g a r,
    ReadCommand g a r ∈ (main (good true false false "10.0" "10.0")).1 ∧
    cf_roof a = None ∧ cf_impervious a = None.
Proof.
  split_and!; [by eexists..|].
  destruct (roof_arguments_null_without_flag
              (good true false false "10.0" "10.0")) as [Hall Hcall].
  - reflexivity.
  - destruct (Hcall (good_reaches_tool true false false)) as (g & a & r & Hin).
    exists g, a, r. split; [done|]. by apply (Hall g a r).
Defined.

Lemma flowtable_names_by_flag_witness :
  flowtable_names (good false true false "10.0" "10.0") "world"
  = ("world_surface.flow", "world_subsurface.flow") ∧
  flowtable_names (good false false false "10.0" "10.0") "world"
  = ("world.flow", "world.flow").
Proof.
  split.
  - apply (flowtable_names_by_flag (good false true false "10.0" "10.0")
             "world"); reflexivity.
  - apply (flowtable_names_by_flag (good false false false "10.0" "10.0")
             "world"); reflexivity.
Defined.

Lemma unparsable_resolution_raises_witness :
  check_metadata bad_resolution = ([], inr ()) ∧
  ∃ s, float s = None ∧
       main bad_resolution = ([], inl (Uncaught (ValueError s))).
Proof.
  destruct (unparsable_resolution_raises bad_resolution)
    as (_ & _ & Hpassed & _).
  - right. by exists "ten".
  - destruct Hpassed as (Hchecks & s & _ & Hs & Hrun); [reflexivity|].
    split; [done|]. by exists s.
Defined.


Lemma postconditions_iff_success_witness :
  (∃ g a s,
     ReadCommand g a (Some s) ∈ (main (good false true false "10.0" "10.0")).1) ∧
  entries_written (main (good false true false "10.0" "10.0")).1
  = [("surface_flowtable", "world_surface.flow");
     ("subsurface_flowtable", "world_subsurface.flow")] ∧
  history_appended (main (good false true false "10.0" "10.0")).1
  = ["CreateFlowtable.py -p /proj"] ∧
  (∃ g a, ReadCommand g a None ∈ (main failing).1) ∧
  (main failing).2 = inl (SysExit "createflowpaths failed, returning None") ∧
  wrote_metadata (main failing).1 = false.
Proof.
  destruct (postconditions_iff_success (good false true false "10.0" "10.0"))
    as (_ & _ & _ & _ & Hok & _).
  destruct (postconditions_iff_success failing) as (_ & _ & _ & Hnull & _).
  assert (∃ g a s, ReadCommand g a (Some s)
                     ∈ (main (good false true false "10.0" "10.0")).1)
    as (g & a & s & Hin).
  { eexists _, _, _. do 2 (apply elem_of_cons; right).
    apply elem_of_cons; left. reflexivity. }
  assert (∃ g a, ReadCommand g a None ∈ (main failing).1) as (g' & a' & Hin').
  { eexists _, _. do 2 (apply elem_of_cons; right).
    apply elem_of_cons; left. reflexivity. }
  destruct (Hok g a s Hin) as (base & Hbase & _ & Hw & Hh).
  destruct (Hnull g' a' Hin') as (Hexit & Hquiet).
  injection Hbase as <-.
  split_and!; eauto.
Defined.

Lemma roads_raster_selection_witness :
  (∃ q0, main (sample true false false "10.0" "10.0"
                 (sample_metadata "bin/cf") (delete "roads_rast" sample_grass))
         = ([], inl (SysExit
              (missing (sample true false false "10.0" "10.0"
                          (sample_metadata "bin/cf")
                          (delete "roads_rast" sample_grass))
                 (req_what q0))))) ∧
  (∃ g a r,
     ReadCommand g a r ∈ (main (good false false false "10.0" "10.0")).1 ∧
     cf_road a = "zero").
Proof.
  split.
  - destruct (roads_raster_selection
                (sample true false false "10.0" "10.0"
                   (sample_metadata "bin/cf")
                   (delete "roads_rast" sample_grass)))
      as [Habort _].
    destruct Habort as (q0 & _ & Hrun & _); [reflexivity..|]. by exists q0.
  - destruct (roads_raster_selection (good false false false "10.0" "10.0"))
      as [_ Hzero].
    destruct Hzero as [Hall Hcall]; [reflexivity|].
    destruct (Hcall (good_reaches_tool false false false)) as (g & a & r & Hin).
    exists g, a, r. split; [done|].
    pose proof (Hall g a r Hin) as Hroad. by injection Hroad as <-.
Defined.

(** ** The further properties on sample projects *)

Import Variants.


Lemma exit_messages_witness :
  (∃ q, q ∈ check_order (args failing) ∧ present failing q = false ∧
        "createflowpaths failed, returning None"
        = missing failing (req_what q) ∧
        (main failing).1 = []) ∨
  ("createflowpaths failed, returning None"
   = "Exiting.  Use --force option to override" ∧
   force (args failing) = false ∧ first_missing failing = None ∧
   invoked (main failing).1 = false) ∨
  ("createflowpaths failed, returning None"
   = "createflowpaths failed, returning None" ∧
   ∃ g a, ReadCommand g a None ∈ (main failing).1).
Proof.
  apply (exit_messages failing "createflowpaths failed, returning None").
  reflexivity.
Defined.

Lemma roads_argument_with_flag_witness :
  ∃ g a r,
    ReadCommand g a r ∈ (main (good true false false "10.0" "10.0")).1 ∧
    cf_road a = "roads".
Proof.
  destruct (roads_argument_with_flag (good true false false "10.0" "10.0"))
    as [Hall Hcall]; [reflexivity|].
  destruct (Hcall (good_reaches_tool true false false)) as (g & a & r & Hin).
  exists g, a, r. split; [done|].
  pose proof (Hall g a r Hin) as Hroad. by injection Hroad as <-.
Defined.

Lemma roof_arguments_with_flag_witness :
  ∃ g a r,
    ReadCommand g a r ∈ (main (good false true false "10.0" "10.0")).1 ∧
    cf_roof a = Some "roofs" ∧ cf_impervious a = Some "impervious".
Proof.
  destruct (roof_arguments_with_flag (good false true false "10.0" "10.0"))
    as [Hall Hcall]; [reflexivity|].
  destruct (Hcall (good_reaches_tool false true false)) as (g & a & r & Hin).
  exists g, a, r. split; [done|].
  destruct (Hall g a r Hin) as (Hroof & Himp & _).
  by rewrite <- Hroof, <- Himp.
Defined.

Lemma roof_rasters_required_with_flag_witness :
  ∃ q0, present no_impervious q0 = false ∧
        main no_impervious
        = ([], inl (SysExit (missing no_impervious (req_what q0)))).
Proof.
  destruct (roof_rasters_required_with_flag no_impervious)
    as (q0 & Hq0 & Hrun & _).
  - reflexivity.
  - by right.
  - by exists q0.
Defined.

Lemma call_session_and_rasters_witness :
  ∃ g a r,
    ReadCommand g a r ∈ (main (good false false false "10.0" "10.0")).1 ∧
    gisdbase g = "/proj/GRASSData" ∧ location g = "default" ∧
    mapset g = "PERMANENT" ∧
    cf_dem a = "dem" ∧ cf_slope a = "slope" ∧ cf_stream a = "streams".
Proof.
  destruct (reaches_invoked _ (good_reaches_tool false false false))
    as (g & a & r & Hin).
  destruct (call_session_and_rasters _ g a r Hin)
    as ((d & Hd & Hdb) & Hloc & Hms & Hdem & Hslope & Hstream).
  exists g, a, r. split; [done|].
  injection Hd as <-. injection Hloc as <-. injection Hms as <-.
  injection Hdem as <-. injection Hslope as <-. injection Hstream as <-.
  by rewrite Hdb.
Defined.

Lemma absolute_paths_reaches_tool : reaches_tool absolute_paths.
Proof.
  split; [reflexivity|].
  exists (ratio 100 10), (ratio 100 10). split_and!; try reflexivity.
  by left.
Defined.

Lemma absolute_values_replace_directory_witness :
  ∃ g a r,
    ReadCommand g a r ∈ (main absolute_paths).1 ∧
    cf_prog a = "/opt/cf" ∧ cf_template a = "/etc/flow.template" ∧
    cf_out a = "/tmp/world".
Proof.
  destruct (reaches_invoked _ absolute_paths_reaches_tool)
    as (g & a & r & Hin).
  destruct (absolute_values_replace_directory _ g a r Hin)
    as (Hprog & Htemplate & Hout).
  exists g, a, r. split_and!; [done|..].
  - by apply Hprog.
  - by apply Htemplate.
  - by apply Hout.
Defined.

Lemma force_only_overrides_mismatch_witness :
  main (with_force no_template true) = main (with_force no_template false).
Proof.
  apply (force_only_overrides_mismatch no_template).
  intros [Hfm _]. discriminate Hfm.
Defined.

Lemma good_same_inputs_cluttered :
  same_inputs (good false false false "10.0" "10.0") cluttered.
Proof.
  split_and!; [reflexivity..|].
  intros q Hq. apply elem_of_app in Hq as [Hq|Hq].
  - revert q Hq. apply Forall_forall. by repeat constructor.
  - by apply elem_of_nil in Hq.
Defined.

Lemma same_inputs_same_run_witness :
  main (good false false false "10.0" "10.0") = main cluttered.
Proof. apply same_inputs_same_run, good_same_inputs_cluttered. Defined.
